(** * stata_kernel: the kernel shell of [stata_kernel/kernel.py]

    A shallow embedding of [StataKernel] (class of [kernel.py]) and proofs
    about its execute-request handler, its completeness RPC, the line-size
    probe and the image sender.

    The Python object is a record of the attributes [kernel.py] assigns;
    methods are computations in a state-and-exception monad over that
    record.  The classes [kernel.py] imports from sibling modules
    ([CodeManager], [StataSession], [StataMagics], [CompletionsManager],
    [Config]) and the library calls it makes (file access, [ElementTree],
    [PIL.Image], [base64], [platform]) are the fields of an interface,
    [Collaborators]. *)

From Stdlib Require Import String Ascii List ZArith Bool Lia.
From Stdlib Require DecimalString DecimalNat.
Import ListNotations.
Local Open Scope string_scope.
Local Open Scope Z_scope.
#[local] Set Warnings "-register-all".

(** ** Python values that travel in replies and messages *)

Inductive PyVal : Type :=
| PNone
| PBool (b : bool)
| PInt (n : Z)
| PFloatHalf (n : Z)            (* the float [n / 2], result of [n /= 2] *)
| PStr (s : string)
| PList (l : list PyVal)
| PDict (d : list (string * PyVal)).

(** Truth value of an object in an [if] test. *)
Definition truthy (v : PyVal) : bool :=
  match v with
  | PNone => false
  | PBool b => b
  | PInt n => negb (n =? 0)
  | PFloatHalf n => negb (n =? 0)
  | PStr s => negb (String.eqb s EmptyString)
  | PList l => match l with [] => false | _ => true end
  | PDict d => match d with [] => false | _ => true end
  end.

(** Dictionaries keep insertion order; [d[key] = v] overwrites in place or
    appends. *)
Fixpoint dict_set (d : list (string * PyVal)) (key : string) (v : PyVal)
  : list (string * PyVal) :=
  match d with
  | [] => [(key, v)]
  | (k, v0) :: d' =>
      if String.eqb k key then (k, v) :: d' else (k, v0) :: dict_set d' key v
  end.

(** ** Strings: the [str] methods and builtins [kernel.py] calls *)

Module PyStr.

(** [str.isspace] on one ASCII character: 9..13, 28..31 and 32. *)
Definition is_space (c : ascii) : bool :=
  let n := nat_of_ascii c in
  ((9 <=? n) && (n <=? 13) || (28 <=? n) && (n <=? 32))%nat.

Fixpoint lstrip (s : string) : string :=
  match s with
  | String c s' => if is_space c then lstrip s' else s
  | EmptyString => EmptyString
  end.

Fixpoint rev_onto (s acc : string) : string :=
  match s with
  | EmptyString => acc
  | String c s' => rev_onto s' (String c acc)
  end.

Definition rev (s : string) : string := rev_onto s EmptyString.

Definition rstrip (s : string) : string := rev (lstrip (rev s)).

(** [s.strip()] *)
Definition strip (s : string) : string := rstrip (lstrip s).

(** [s.endswith(suffix)] *)
Definition endswith (s suffix : string) : bool :=
  String.prefix (rev suffix) (rev s).

(** [s[:-2]] *)
Definition drop_last2 (s : string) : string :=
  String.substring 0 (String.length s - 2) s.

Definition digit_val (c : ascii) : option Z :=
  let n := nat_of_ascii c in
  if ((48 <=? n) && (n <=? 57))%nat then Some (Z.of_nat n - 48) else None.

(** Digits of a decimal literal after the sign.  [acc] is the value read
    so far; [after_digit] says whether the previous character was a
    digit, the only place where an underscore or the end may come. *)
Fixpoint int_digits (s : string) (acc : Z) (after_digit : bool) : option Z :=
  match s with
  | EmptyString => if after_digit then Some acc else None
  | String c s' =>
      match digit_val c with
      | Some d => int_digits s' (10 * acc + d) true
      | None =>
          if Ascii.eqb c "_"%char && after_digit
          then int_digits s' acc false
          else None
      end
  end.

(** [int(s)] in base ten on ASCII text; [None] is [ValueError]. *)
Definition int (s : string) : option Z :=
  match strip s with
  | String "-"%char s' => option_map Z.opp (int_digits s' 0 false)
  | String "+"%char s' => int_digits s' 0 false
  | s' => int_digits s' 0 false
  end.

(** ** [textwrap.dedent] *)

Fixpoint split_lines_aux (s : string) (cur : string) : list string :=
  match s with
  | EmptyString => [rev cur]
  | String c s' =>
      if Ascii.eqb c "010"%char
      then rev cur :: split_lines_aux s' EmptyString
      else split_lines_aux s' (String c cur)
  end.

(** [s.split('\n')] *)
Definition split_lines (s : string) : list string :=
  split_lines_aux s EmptyString.

Fixpoint join_lines (l : list string) : string :=
  match l with
  | [] => EmptyString
  | [x] => x
  | x :: l' => x ++ String "010"%char (join_lines l')
  end.

Definition is_blank (c : ascii) : bool :=
  Ascii.eqb c " "%char || Ascii.eqb c "009"%char.

Fixpoint all_blank (s : string) : bool :=
  match s with
  | EmptyString => true
  | String c s' => is_blank c && all_blank s'
  end.

(** Leading run of spaces and tabs. *)
Fixpoint indent_of (s : string) : string :=
  match s with
  | String c s' => if is_blank c then String c (indent_of s') else EmptyString
  | EmptyString => EmptyString
  end.

Fixpoint common_prefix (a b : string) : string :=
  match a, b with
  | String x a', String y b' =>
      if Ascii.eqb x y then String x (common_prefix a' b') else EmptyString
  | _, _ => EmptyString
  end.

(** The margin: longest common leading whitespace of the lines that are
    not blank; [None] when every line is blank. *)
Fixpoint margin (l : list string) : option string :=
  match l with
  | [] => None
  | x :: l' =>
      if all_blank x then margin l'
      else match margin l' with
           | None => Some (indent_of x)
           | Some m => Some (common_prefix (indent_of x) m)
           end
  end.

Definition drop (n : nat) (s : string) : string :=
  String.substring n (String.length s - n) s.

Definition dedent (s : string) : string :=
  let ls := map (fun x => if all_blank x then EmptyString else x)
                (split_lines s) in
  match margin ls with
  | None => join_lines ls
  | Some m =>
      join_lines
        (map (fun x => if all_blank x then x else drop (String.length m) x)
             ls)
  end.

End PyStr.

(** ** Outcomes *)

(** A call either returns a value or raises; the exception is named by its
    Python class. *)
Inductive Outcome (A : Type) : Type :=
| Returned (a : A)
| Raised (exn : string).
Arguments Returned {A} a.
Arguments Raised {A} exn.

(** ** The kernel object *)

(** The types [kernel.py] does not look into.  [World] is everything
    outside the attributes of [StataKernel] that [kernel.py] itself
    assigns: the Stata process and its session object, the magics and
    completions objects, the file system and the messages the collaborators
    send on their own account. *)
Record Domain : Type := mkDomain {
  World : Type;
  Conf : Type;                     (* [Config] objects *)
  CodeManager : Type;              (* [CodeManager] objects *)
  Exclude : Type                   (* third component of [get_text] *)
}.

(** Events of one call, in program order: what [kernel.py] asks of its
    collaborators and what it sends itself. *)
Inductive Event (D : Domain) : Type :=
| EvCodeManager (code : string) (sc : option bool)
| EvGetText (cm : CodeManager D)
| EvDo (text md5 : string) (excl : Exclude D) (display : option bool)
| EvMagic (code : string)
| EvMagicsPost
| EvRefresh
| EvSend (msg_type : string) (content : PyVal).
Arguments EvCodeManager {D} code sc.
Arguments EvGetText {D} cm.
Arguments EvDo {D} text md5 excl display.
Arguments EvMagic {D} code.
Arguments EvMagicsPost {D}.
Arguments EvRefresh {D}.
Arguments EvSend {D} msg_type content.

(** The attributes of a [StataKernel]. *)
Record Kernel (D : Domain) : Type := mkKernel {
  conf : Conf D;                   (* [self.conf] *)
  graph_formats : list string;     (* [self.graph_formats] *)
  sc_delimit_mode : bool;          (* [self.sc_delimit_mode] *)
  execution_count : Z;             (* [self.execution_count], base class *)
  linesize : Z;                    (* [self.stata.linesize] *)
  world : World D
}.
Arguments conf {D} k.
Arguments graph_formats {D} k.
Arguments sc_delimit_mode {D} k.
Arguments execution_count {D} k.
Arguments linesize {D} k.
Arguments world {D} k.

(** The collaborators.  One that is handed the kernel reads it and changes
    the world only.  In an optional argument [None] is a call that leaves
    the argument to the callee's default; in a result of a library call
    [None] is the exception the call raises. *)
Class Collaborators (D : Domain) : Type := {
  (* [CodeManager(code, semicolon_delimit)] *)
  CodeManager_new : string -> option bool -> CodeManager D;
  cm_is_complete : CodeManager D -> bool;             (* [cm.is_complete] *)
  cm_ends_sc : CodeManager D -> bool;                 (* [cm.ends_sc] *)
  (* [cm.get_text(conf)] *)
  cm_get_text : CodeManager D -> Conf D -> string * string * Exclude D;
  (* [self.stata.do(text, md5, text_to_exclude=..., display=...)] *)
  stata_do : Kernel D -> string -> string -> Exclude D -> option bool ->
             (Z * string) * World D;
  (* [self.magics.magic(code, self)] *)
  magics_magic : Kernel D -> string -> string * World D;
  (* [self.magics.quit_early] *)
  magics_quit_early : World D -> PyVal;
  (* [self.magics.post(self)] *)
  magics_post : Kernel D -> World D;
  (* [self.completions.refresh(self)] *)
  completions_refresh : Kernel D -> World D;
  (* [open(path, 'r', encoding='utf-8').read()] *)
  read_text : World D -> string -> option string;
  (* [open(path, 'rb').read()] *)
  read_bytes : World D -> string -> option string;
  (* [ET.ElementTree(ET.fromstring(img)).getroot().attrib] *)
  ET_root_attrib : string -> option (list (string * string));
  (* [Image.open(path).size] *)
  Image_open_size : World D -> string -> option (Z * Z);
  platform_system : string;                           (* [platform.system()] *)
  (* [base64.b64encode(raw).decode('utf-8')] *)
  b64encode : string -> string
}.

Section KernelCode.

Context {D : Domain} {C : Collaborators D}.

(** *** The monad of methods

    A method maps the kernel to its outcome, the kernel it leaves and the
    events of the call, oldest first.  What was assigned and sent before an
    exception stays. *)

Definition M (A : Type) : Type :=
  Kernel D -> Outcome A * Kernel D * list (Event D).

Definition ret {A} (a : A) : M A := fun k => (Returned a, k, []).

Definition bind {A B} (c : M A) (f : A -> M B) : M B :=
  fun k =>
    match c k with
    | (Returned a, k', ev) =>
        let '(o, k'', ev') := f a k' in (o, k'', (ev ++ ev')%list)
    | (Raised e, k', ev) => (Raised e, k', ev)
    end.

Definition raise {A} (e : string) : M A := fun k => (Raised e, k, []).

Definition gets {A} (f : Kernel D -> A) : M A :=
  fun k => (Returned (f k), k, []).

Definition modify (f : Kernel D -> Kernel D) : M unit :=
  fun k => (Returned tt, f k, []).

Definition emit (e : Event D) : M unit := fun k => (Returned tt, k, [e]).

Definition when (b : bool) (c : M unit) : M unit := if b then c else ret tt.

(** [None] raises the named exception. *)
Definition or_raise {A} (o : option A) (e : string) : M A :=
  match o with
  | Some a => ret a
  | None => raise e
  end.

Notation "x <- c ;; f" := (bind c (fun x => f))
  (at level 61, c at next level, right associativity).
Notation "c ;;; f" := (bind c (fun _ => f))
  (at level 61, right associativity).

Definition outcome_of {A} (r : Outcome A * Kernel D * list (Event D))
  : Outcome A := fst (fst r).
Definition kernel_of {A} (r : Outcome A * Kernel D * list (Event D))
  : Kernel D := snd (fst r).
Definition events_of {A} (r : Outcome A * Kernel D * list (Event D))
  : list (Event D) := snd r.

Definition set_world (w : World D) (k : Kernel D) : Kernel D :=
  mkKernel D (conf k) (graph_formats k) (sc_delimit_mode k)
           (execution_count k) (linesize k) w.

Definition set_sc_delimit_mode (b : bool) (k : Kernel D) : Kernel D :=
  mkKernel D (conf k) (graph_formats k) b
           (execution_count k) (linesize k) (world k).

Definition set_linesize (n : Z) (k : Kernel D) : Kernel D :=
  mkKernel D (conf k) (graph_formats k) (sc_delimit_mode k)
           (execution_count k) n (world k).

(** *** Calls *)

(** [self.send_response(self.iopub_socket, msg_type, content)] *)
Definition send_response (msg_type : string) (content : PyVal) : M unit :=
  emit (EvSend msg_type content).

Definition new_CodeManager (code : string) (sc : option bool)
  : M (CodeManager D) :=
  emit (EvCodeManager code sc) ;;;
  ret (CodeManager_new code sc).

Definition get_text (cm : CodeManager D)
  : M (string * string * Exclude D) :=
  emit (EvGetText cm) ;;;
  c <- gets conf ;;
  ret (cm_get_text cm c).

Definition do (text md5 : string) (excl : Exclude D) (display : option bool)
  : M (Z * string) :=
  fun k =>
    let '(r, w) := stata_do k text md5 excl display in
    (Returned r, set_world w k, [EvDo text md5 excl display]).

Definition magic (code : string) : M string :=
  fun k =>
    let '(code', w) := magics_magic k code in
    (Returned code', set_world w k, [EvMagic code]).

Definition post : M unit :=
  fun k => (Returned tt, set_world (magics_post k) k, [EvMagicsPost]).

Definition refresh : M unit :=
  fun k => (Returned tt, set_world (completions_refresh k) k, [EvRefresh]).

(** *** [StataKernel.__init__]

    The copy of the syntax-highlighting files and the constructors of the
    collaborators act on the world; [w] is the world they leave, [c] the
    [Config()] object, [ls] the line size the new session starts with.  The
    base class starts the execution count at zero. *)
Definition init (w : World D) (c : Conf D) (ls : Z) : Kernel D :=
  {| conf := c;
     graph_formats := ["svg"; "png"; "pdf"];
     sc_delimit_mode := false;
     execution_count := 0;
     linesize := ls;
     world := w |}.

(** *** [StataKernel.is_complete] *)
Definition is_complete (code : string) : M bool :=
  sc <- gets sc_delimit_mode ;;
  cm <- new_CodeManager code (Some sc) ;;
  ret (cm_is_complete cm).

(** *** [StataKernel.do_is_complete] *)
Definition do_is_complete (code : string) : M PyVal :=
  c <- is_complete code ;;
  if c then ret (PDict [("status", PStr "complete")])
  else ret (PDict [("status", PStr "incomplete"); ("indent", PStr "    ")]).

(** *** [StataKernel.post_do_hook] *)
Definition post_do_hook : M unit :=
  cm <- new_CodeManager "di `c(linesize)'" None ;;
  t <- get_text cm ;;
  let '(text_to_run, md5, text_to_exclude) := t in
  r <- do text_to_run md5 text_to_exclude (Some false) ;;
  let '(rc, res) := r in
  when (negb (truthy (PInt rc)))
       (n <- or_raise (PyStr.int (PyStr.strip res)) "ValueError" ;;
        modify (set_linesize n)) ;;;
  refresh.

(** *** [StataKernel.do_execute] *)

Definition invalid_input_msg : string :=
"        stata_kernel error: code entered was incomplete.

        This usually means that a loop or program was not correctly terminated.
        This can also happen if you are in `#delimit ;` mode and did not end the
        command with `;`. Use `%delimit` to see the current delimiter mode.
        ".

(** The reply of a block that ran: [return_obj]. *)
Definition return_obj (ec rc : Z) : PyVal :=
  let return_obj := [("execution_count", PInt ec)] in
  if truthy (PInt rc) then
    PDict (dict_set return_obj "status" (PStr "error"))
  else
    let return_obj := dict_set return_obj "status" (PStr "ok") in
    let return_obj := dict_set return_obj "payload" (PList []) in
    let return_obj := dict_set return_obj "user_expressions" (PDict []) in
    PDict return_obj.

(** The notice of a changed delimiter. *)
Definition delimiter_notice (ends_sc : bool) : PyVal :=
  let delim := if ends_sc then ";" else "cr" in
  PDict [("text", PStr ("delimiter now " ++ delim)); ("name", PStr "stdout")].

(** [store_history], [user_expressions] and [allow_stdin] are parameters
    the body never reads. *)
Definition do_execute (code : string) (silent : bool) : M PyVal :=
  c <- is_complete code ;;
  if negb c then
    send_response "stream"
      (PDict [("text", PStr (PyStr.dedent invalid_input_msg));
              ("name", PStr "stderr")]) ;;;
    ec <- gets execution_count ;;
    ret (PDict [("status", PStr "error"); ("execution_count", PInt ec)])
  else
    code <- magic code ;;
    qe <- gets (fun k => magics_quit_early (world k)) ;;
    if truthy qe then ret qe
    else
      sc <- gets sc_delimit_mode ;;
      cm <- new_CodeManager code (Some sc) ;;
      t <- get_text cm ;;
      let '(text_to_run, md5, text_to_exclude) := t in
      r <- do text_to_run md5 text_to_exclude None ;;
      let '(rc, res) := r in
      post ;;;
      post_do_hook ;;;
      sc' <- gets sc_delimit_mode ;;
      when (negb silent && negb (Bool.eqb (cm_ends_sc cm) sc'))
           (send_response "stream" (delimiter_notice (cm_ends_sc cm))) ;;;
      modify (set_sc_delimit_mode (cm_ends_sc cm)) ;;;
      ec <- gets execution_count ;;
      ret (return_obj ec rc).

(** *** [StataKernel.send_image] *)

Definition no_display_msg : string :=
  "This front-end cannot display the desired image type.".

Fixpoint attrib_get (a : list (string * string)) (key : string)
  : option string :=
  match a with
  | [] => None
  | (k, v) :: a' => if String.eqb k key then Some v else attrib_get a' key
  end.

Definition send_image (graph_path : string) : M unit :=
  if PyStr.endswith graph_path ".svg" then
    w <- gets world ;;
    img <- or_raise (read_text w graph_path) "OSError" ;;
    attrib <- or_raise (ET_root_attrib img) "ParseError" ;;
    ws <- or_raise (attrib_get attrib "width") "KeyError" ;;
    width <- or_raise (PyStr.int (PyStr.drop_last2 ws)) "ValueError" ;;
    hs <- or_raise (attrib_get attrib "height") "KeyError" ;;
    height <- or_raise (PyStr.int (PyStr.drop_last2 hs)) "ValueError" ;;
    send_response "display_data"
      (PDict [("data", PDict [("text/plain", PStr no_display_msg);
                              ("image/svg+xml", PStr img)]);
              ("metadata",
               PDict [("image/svg+xml",
                       PDict [("width", PInt width);
                              ("height", PInt height)])])])
  else if PyStr.endswith graph_path ".png" then
    w <- gets world ;;
    size <- or_raise (Image_open_size w graph_path) "OSError" ;;
    let '(width, height) := size in
    let darwin := String.eqb platform_system "Darwin" in
    let width := if darwin then PFloatHalf width else PInt width in
    let height := if darwin then PFloatHalf height else PInt height in
    raw <- or_raise (read_bytes w graph_path) "OSError" ;;
    let img := b64encode raw in
    send_response "display_data"
      (PDict [("data", PDict [("text/plain", PStr no_display_msg);
                              ("image/png", PStr img)]);
              ("metadata",
               PDict [("image/png",
                       PDict [("width", width); ("height", height)])])])
  else if PyStr.endswith graph_path ".pdf" then
    w <- gets world ;;
    raw <- or_raise (read_bytes w graph_path) "OSError" ;;
    let pdf := b64encode raw in
    send_response "display_data"
      (PDict [("data", PDict [("text/plain", PStr no_display_msg);
                              ("application/pdf", PStr pdf)]);
              ("metadata", PDict [])])
  else ret tt.

(** *** Names for the steps of one [do_execute] call

    The values the body of [do_execute] computes on [code] in kernel [k] when
    the completeness check passes, in program order. *)

(** Line 101: the code the magics leave, and the kernel after them. *)
Definition magic_code (code : string) (k : Kernel D) : string :=
  fst (magics_magic k code).
Definition after_magic (code : string) (k : Kernel D) : Kernel D :=
  set_world (snd (magics_magic k code)) k.

(** Line 104: [self.magics.quit_early]. *)
Definition quit_early (code : string) (k : Kernel D) : PyVal :=
  magics_quit_early (world (after_magic code k)).

(** Line 108: [cm]. *)
Definition splitter (code : string) (k : Kernel D) : CodeManager D :=
  CodeManager_new (magic_code code k) (Some (sc_delimit_mode k)).

(** Lines 109-111: the round trip of the user's block through the session,
    [(rc, res)] and the world it leaves. *)
Definition round_trip (code : string) (k : Kernel D)
  : (Z * string) * World D :=
  let '(text_to_run, md5, text_to_exclude) :=
    cm_get_text (splitter code k) (conf k) in
  stata_do (after_magic code k) text_to_run md5 text_to_exclude None.
Definition session_rc (code : string) (k : Kernel D) : Z :=
  fst (fst (round_trip code k)).

(** Line 114: the kernel that enters [post_do_hook]. *)
Definition before_hook (code : string) (k : Kernel D) : Kernel D :=
  let k2 := set_world (snd (round_trip code k)) (after_magic code k) in
  set_world (magics_post k2) k2.

(** Lines 141-144: the probe and its round trip in kernel [k]. *)
Definition probe_code : string := "di `c(linesize)'".
Definition probe : CodeManager D := CodeManager_new probe_code None.
Definition probe_trip (k : Kernel D) : (Z * string) * World D :=
  let '(text_to_run, md5, text_to_exclude) := cm_get_text probe (conf k) in
  stata_do k text_to_run md5 text_to_exclude (Some false).
Definition probe_rc (k : Kernel D) : Z := fst (fst (probe_trip k)).
Definition probe_res (k : Kernel D) : string := snd (fst (probe_trip k)).
Definition probe_event (k : Kernel D) : Event D :=
  let '(text_to_run, md5, text_to_exclude) := cm_get_text probe (conf k) in
  EvDo text_to_run md5 text_to_exclude (Some false).

(** *** Names for the events of one [do_execute] call *)

(** The hint sent for an incomplete block. *)
Definition hint_event : Event D :=
  EvSend "stream"
    (PDict [("text", PStr (PyStr.dedent invalid_input_msg));
            ("name", PStr "stderr")]).

(** Line 110: the round trip of the user's block. *)
Definition user_event (code : string) (k : Kernel D) : Event D :=
  let '(text_to_run, md5, text_to_exclude) :=
    cm_get_text (splitter code k) (conf k) in
  EvDo text_to_run md5 text_to_exclude None.

(** The events of a block that runs, up to the hook. *)
Definition run_prefix (code : string) (k : Kernel D) : list (Event D) :=
  [EvCodeManager code (Some (sc_delimit_mode k)); EvMagic code;
   EvCodeManager (magic_code code k) (Some (sc_delimit_mode k));
   EvGetText (splitter code k); user_event code k; EvMagicsPost].

(** The events of the hook up to and including the probe's round trip. *)
Definition hook_prefix (k : Kernel D) : list (Event D) :=
  [EvCodeManager probe_code None; EvGetText probe; probe_event k].

(** The kernel the hook leaves when it returns with line size [ls]. *)
Definition hook_kernel (k : Kernel D) (ls : Z) : Kernel D :=
  let k2 := set_linesize ls (set_world (snd (probe_trip k)) k) in
  set_world (completions_refresh k2) k2.

(** Lines 119-124: what is sent about the delimiter. *)
Definition notice_events (code : string) (silent : bool) (k : Kernel D)
  : list (Event D) :=
  if negb silent
     && negb (Bool.eqb (cm_ends_sc (splitter code k)) (sc_delimit_mode k))
  then [EvSend "stream" (delimiter_notice (cm_ends_sc (splitter code k)))]
  else [].

(** *** Classes of events *)

(** A stdout stream message [delimiter now ;] or [delimiter now cr]. *)
Definition is_notice (e : Event D) : bool :=
  match e with
  | EvSend msg_type (PDict [(k1, PStr text); (k2, PStr name)]) =>
      String.eqb msg_type "stream" && String.eqb k1 "text"
      && (String.eqb text "delimiter now ;"
          || String.eqb text "delimiter now cr")
      && String.eqb k2 "name" && String.eqb name "stdout"
  | _ => false
  end.

(** A call of the session's [do]. *)
Definition is_do (e : Event D) : bool :=
  match e with EvDo _ _ _ _ => true | _ => false end.

(** A call of [get_text]. *)
Definition is_get_text (e : Event D) : bool :=
  match e with EvGetText _ => true | _ => false end.

(** A construction of a [CodeManager]. *)
Definition is_code_manager (e : Event D) : bool :=
  match e with EvCodeManager _ _ => true | _ => false end.

Definition count (p : Event D -> bool) (evs : list (Event D)) : nat :=
  List.length (filter p evs).

End KernelCode.

(** ** The completeness checker behind [CodeManager]

    Modelled from the spec: the scanner and completeness checker of
    [code_manager.py], which is missing.  [kernel.py] delegates
    [is_complete] to [CodeManager(code, mode)]; the scanner below follows
    sections 4.1 and 4.3 of the design document: a character-by-character
    state machine over the lexical states listed there, with the markers
    taken from a configuration value.  Chunks are not built: only the
    verdict and the final mode are. *)

Module Scanner.

(** Delimiter mode: statements end at a newline or at the explicit marker. *)
Inductive Mode : Type := Newline | Explicit.

Definition mode_of_sc (sc : bool) : Mode := if sc then Explicit else Newline.
Definition sc_of_mode (m : Mode) : bool :=
  match m with Explicit => true | Newline => false end.
Definition flip (m : Mode) : Mode :=
  match m with Explicit => Newline | Newline => Explicit end.

(** The tunables the configuration supplies: comment and continuation
    markers, the quote convention, the delimiter directive and the
    block-open and block-close keyword sets. *)
Record Config : Type := mkConfig {
  line_comment : list string;
  block_comment_start : list string;
  block_comment_end : list string;
  continuation : list string;
  directive : list string;
  block_open : list string;
  block_close : list string;
  quote : ascii;
  escape : ascii
}.

(** Lexical states of section 4.3. *)
Inductive Lex : Type :=
| Normal
| InLineComment
| InBlockComment (depth : nat)
| InString
| InContinuation
| PendingDelimiterSwitch.

(** Scanner state: lexical state, counter of open structural blocks, active
    delimiter mode, and the characters of a recognized marker still to pass
    over. *)
Record State : Type := mkState {
  lex : Lex;
  nesting : Z;
  mode : Mode;
  skip : nat
}.

Definition initial (m : Mode) : State :=
  {| lex := Normal; nesting := 0; mode := m; skip := 0 |}.

Definition newline : ascii := "010"%char.

(** Length of the first marker of [ms] that the text [s] starts with. *)
Fixpoint match_any (ms : list string) (s : string) : option nat :=
  match ms with
  | [] => None
  | m :: ms' =>
      if String.prefix m s then Some (String.length m) else match_any ms' s
  end.

Definition goto (l : Lex) (n : nat) (st : State) : State :=
  {| lex := l; nesting := nesting st; mode := mode st; skip := Nat.pred n |}.

(** In [Normal] text, the markers are tried in this order: continuation,
    line comment, block comment, quote, delimiter directive, block-open
    keyword, block-close keyword.  The directive flips the active mode. *)
Definition step_normal (cfg : Config) (st : State) (c : ascii) (s : string)
  : State :=
  match match_any (continuation cfg) s with
  | Some n => goto InContinuation n st
  | None =>
  match match_any (line_comment cfg) s with
  | Some n => goto InLineComment n st
  | None =>
  match match_any (block_comment_start cfg) s with
  | Some n => goto (InBlockComment 1) n st
  | None =>
  if Ascii.eqb c (quote cfg) then goto InString 1 st else
  match match_any (directive cfg) s with
  | Some n =>
      {| lex := PendingDelimiterSwitch; nesting := nesting st;
         mode := flip (mode st); skip := Nat.pred n |}
  | None =>
  match match_any (block_open cfg) s with
  | Some n =>
      {| lex := Normal; nesting := nesting st + 1;
         mode := mode st; skip := Nat.pred n |}
  | None =>
  match match_any (block_close cfg) s with
  | Some n =>
      {| lex := Normal; nesting := nesting st - 1;
         mode := mode st; skip := Nat.pred n |}
  | None => st
  end end end end end end.

(** One character of input; [s] is the text from that character on, which
    the markers are matched against. *)
Definition step (cfg : Config) (st : State) (s : string) : State :=
  match s with
  | EmptyString => st
  | String c _ =>
      match skip st with
      | S n =>
          {| lex := lex st; nesting := nesting st; mode := mode st; skip := n |}
      | O =>
          match lex st with
          | Normal => step_normal cfg st c s
          | InLineComment =>
              if Ascii.eqb c newline then goto Normal 1 st else st
          | InBlockComment d =>
              match match_any (block_comment_start cfg) s with
              | Some n => goto (InBlockComment (S d)) n st
              | None =>
                  match match_any (block_comment_end cfg) s with
                  | Some n =>
                      match d with
                      | S (S d') => goto (InBlockComment (S d')) n st
                      | _ => goto Normal n st
                      end
                  | None => st
                  end
              end
          | InString =>
              if Ascii.eqb c (escape cfg) then goto InString 2 st
              else if Ascii.eqb c (quote cfg) then goto Normal 1 st
              else st
          | InContinuation =>
              if Ascii.eqb c newline then goto Normal 1 st else st
          | PendingDelimiterSwitch =>
              if Ascii.eqb c newline then goto Normal 1 st else st
          end
      end
  end.

(** Run the scanner to end of input. *)
Fixpoint scan (cfg : Config) (st : State) (s : string) : State :=
  match s with
  | EmptyString => st
  | String _ s' => scan cfg (step cfg st s) s'
  end.

(** The verdict is false inside an unterminated string, block comment or
    continuation, or with a structural block still open; true otherwise. *)
Definition accepting (st : State) : bool :=
  match lex st with
  | InString | InBlockComment _ | InContinuation => false
  | Normal | InLineComment | PendingDelimiterSwitch => negb (0 <? nesting st)
  end.

(** Modelled from the spec: [CodeManager.is_complete], the verdict of
    [isComplete(sourceText, delimiterMode)] (section 4.3); the module
    [code_manager.py] is missing. *)
Definition isComplete (cfg : Config) (text : string) (m : Mode) : bool :=
  accepting (scan cfg (initial m) text).

(** Modelled from the spec: [CodeManager.ends_sc], the [finalMode] of
    [split(sourceText, delimiterMode)] (section 4.2), the mode active at end
    of input; the module [code_manager.py] is missing. *)
Definition finalMode (cfg : Config) (text : string) (m : Mode) : Mode :=
  mode (scan cfg (initial m) text).

(** Whitespace-only text. *)
Fixpoint all_space (w : string) : bool :=
  match w with
  | EmptyString => true
  | String c w' => PyStr.is_space c && all_space w'
  end.

Fixpoint no_space (m : string) : bool :=
  match m with
  | EmptyString => true
  | String c m' => negb (PyStr.is_space c) && no_space m'
  end.

(** A marker is a non-empty run of characters that are not whitespace. *)
Definition marker_ok (m : string) : bool :=
  negb (String.eqb m EmptyString) && no_space m.

(** Configurations the checker is built with. *)
Definition well_formed (cfg : Config) : bool :=
  forallb marker_ok (line_comment cfg)
  && forallb marker_ok (block_comment_start cfg)
  && forallb marker_ok (block_comment_end cfg)
  && forallb marker_ok (continuation cfg)
  && forallb marker_ok (directive cfg)
  && forallb marker_ok (block_open cfg)
  && forallb marker_ok (block_close cfg)
  && negb (PyStr.is_space (quote cfg)).

(** The markers of the scenarios of the design document. *)
Definition stata_config : Config :=
  {| line_comment := ["//"; "*"];
     block_comment_start := ["/*"];
     block_comment_end := ["*/"];
     continuation := ["///"];
     directive := ["#delimit"];
     block_open := ["{"];
     block_close := ["}"];
     quote := "034"%char;
     escape := "\"%char |}.

End Scanner.

(** ** A session to run the handler on

    Stand-ins for the collaborators: the code manager is the scanner above
    with [stata_config]; the session answers each [do] with the next of a
    list of prepared results; a block that starts with [%] is a magic that
    the dispatcher handles in full. *)

Module Demo.

Record DemoWorld : Type := mkWorld {
  results : list (Z * string);       (* answers of the coming [do] calls *)
  handled : PyVal;                   (* [quit_early] *)
  files : list (string * string)     (* path and content *)
}.

Definition D : Domain :=
  {| World := DemoWorld;
     Conf := unit;
     CodeManager := string * Scanner.Mode;
     Exclude := unit |}.

Definition demo_new (code : string) (sc : option bool) : CodeManager D :=
  (code, Scanner.mode_of_sc (match sc with Some b => b | None => false end)).

Definition demo_do (k : Kernel D) (text md5 : string) (excl : Exclude D)
  (display : option bool) : (Z * string) * World D :=
  match results (world k) with
  | [] => ((0, "80"), world k)
  | r :: rs => (r, mkWorld rs (handled (world k)) (files (world k)))
  end.

Definition demo_magic (k : Kernel D) (code : string) : string * World D :=
  if String.prefix "%" code then
    (EmptyString, mkWorld (results (world k))
                 (PDict [("execution_count", PInt (execution_count k));
                         ("status", PStr "ok")])
                 (files (world k)))
  else (code, mkWorld (results (world k)) PNone (files (world k))).

Fixpoint demo_read (fs : list (string * string)) (path : string)
  : option string :=
  match fs with
  | [] => None
  | (p, c) :: fs' => if String.eqb p path then Some c else demo_read fs' path
  end.

#[global] Instance demo : Collaborators D := {
  CodeManager_new := demo_new;
  cm_is_complete cm :=
    Scanner.isComplete Scanner.stata_config (fst cm) (snd cm);
  cm_ends_sc cm :=
    Scanner.sc_of_mode
      (Scanner.finalMode Scanner.stata_config (fst cm) (snd cm));
  cm_get_text cm _ := (fst cm, "md5", tt);
  stata_do := demo_do;
  magics_magic := demo_magic;
  magics_quit_early := handled;
  magics_post k := world k;
  completions_refresh k := world k;
  read_text w path := demo_read (files w) path;
  read_bytes w path := demo_read (files w) path;
  ET_root_attrib _ := Some [("width", "120pt"); ("height", "80pt")];
  Image_open_size _ _ := Some (600, 400);
  platform_system := "Linux";
  b64encode raw := raw
}.

(** A fresh kernel whose session will answer with [rs]. *)
Definition kernel0 (rs : list (Z * string)) : Kernel D :=
  init (D := D) (mkWorld rs PNone []) tt 80.

(** A block that switches to the explicit delimiter and runs a command
    Stata does not know. *)
Definition delimit_block : string :=
"#delimit ;
foo ;".

(** Two statements under the explicit delimiter. *)
Definition two_statements : string :=
"#delimit ;
di 1 ; di 2 ;".

(** A loop left open. *)
Definition open_block : string := "foreach i in 1 2 {".

(** A session in which the user's block fails with return code 199 and the
    probe then succeeds. *)
Definition failing : Kernel D :=
  kernel0 [(199, "command foo is unrecognized"); (0, "80")].

(** A session in which the block passes and the probe reports 120. *)
Definition passing : Kernel D :=
  kernel0 [(0, "ok"); (0, "120")].

End Demo.

(** ** The other methods of [StataKernel] *)

Module PySlice.

(** The bound of a slice: a negative index counts from the end, and every
    index is brought into [0 .. len]. *)
Definition clamp (len i : Z) : Z :=
  if i <? 0 then Z.max 0 (i + len) else Z.min i len.

(** [s[lo:hi]] *)
Definition slice (s : string) (lo hi : Z) : string :=
  let len := Z.of_nat (String.length s) in
  let a := clamp len lo in
  let b := clamp len hi in
  String.substring (Z.to_nat a) (Z.to_nat (b - a)) s.

End PySlice.

(** [str(n)] for a natural number: its decimal numeral. *)
Definition decimal (n : nat) : string :=
  DecimalString.NilZero.string_of_uint (Nat.to_uint n).

(** The collaborators of [do_complete] and [do_shutdown]: the completions
    index and the end of the session.  As before they change the world
    only. *)
Class Completions (D : Domain) : Type := {
  CompletionEnv : Type;
  RComp : Type;
  (* [self.completions.get_env(before, ahead, sc_delimit_mode)] *)
  completions_get_env :
    World D -> string -> string -> bool ->
    (CompletionEnv * PyVal * string * RComp) * World D;
  (* [self.completions.get(chunk, env, rcomp)] *)
  completions_get :
    World D -> string -> CompletionEnv -> RComp -> PyVal * World D;
  (* [self.stata.shutdown()] *)
  stata_shutdown : World D -> World D
}.

Section OtherMethods.

Context {D : Domain} {C : Collaborators D} {P : Completions D}.

(** *** [StataKernel.do_shutdown] *)
Definition do_shutdown (restart : PyVal) : M PyVal :=
  fun k =>
    (Returned (PDict [("restart", restart)]),
     set_world (stata_shutdown (world k)) k, []).

(** *** [StataKernel.do_complete] *)

(** The text before the cursor and the two characters from it on. *)
Definition before_cursor (code : string) (cursor_pos : Z) : string :=
  PySlice.slice code 0 cursor_pos.
Definition after_cursor (code : string) (cursor_pos : Z) : string :=
  PySlice.slice code cursor_pos (cursor_pos + 2).

Definition do_complete (code : string) (cursor_pos : Z) : M PyVal :=
  fun k =>
    let '((env, pos, chunk, rcomp), w1) :=
      completions_get_env (world k) (before_cursor code cursor_pos)
        (after_cursor code cursor_pos) (sc_delimit_mode k) in
    let '(matches, w2) := completions_get w1 chunk env rcomp in
    (Returned (PDict [("status", PStr "ok");
                      ("cursor_start", pos);
                      ("cursor_end", PInt cursor_pos);
                      ("matches", matches)]),
     set_world w2 k, []).

(** *** More names for one [do_execute] call *)

(** The hook raises: the probe passed and its output is no integer. *)
Definition hook_raises (k : Kernel D) : bool :=
  (probe_rc k =? 0)
  && match PyStr.int (PyStr.strip (probe_res k)) with
     | Some _ => false
     | None => true
     end.

(** The line size the hook leaves. *)
Definition hook_linesize (k : Kernel D) : Z :=
  if probe_rc k =? 0 then
    match PyStr.int (PyStr.strip (probe_res k)) with
    | Some n => n
    | None => linesize k
    end
  else linesize k.

(** The block passes the gate and the magics leave it to the session. *)
Definition runs (code : string) (k : Kernel D) : bool :=
  cm_is_complete (CodeManager_new code (Some (sc_delimit_mode k)))
  && negb (truthy (quit_early code k)).

(** A message on stderr, as the hint for an incomplete block is. *)
Definition is_stderr (e : Event D) : bool :=
  match e with
  | EvSend _ (PDict [_; (_, PStr name)]) => String.eqb name "stderr"
  | _ => false
  end.

(** A call of [completions.refresh]. *)
Definition is_refresh (e : Event D) : bool :=
  match e with EvRefresh => true | _ => false end.

End OtherMethods.

(** ** The copy of the syntax-highlighting files in [__init__] *)

Module Bootstrap.

(** What the loop does to the file system, in program order. *)
Inductive FsEvent : Type :=
| FsMkdir (dir : string)
| FsCopy (src dst : string).

(** The file system as [__init__] uses it.  [stat_dt] is
    [datetime.fromtimestamp(p.stat().st_mtime)], [None] when [stat]
    raises; [mkdir] is [p.mkdir(parents=True, exist_ok=True)] and [copy] is
    [shutil.copy(src, dst)], with [false] for a raised [OSError] and the
    file system they leave either way. *)
Class FileSystem (FS : Type) : Type := {
  (* [pkg_resources.resource_filename(package, name)] *)
  resource_filename : string -> string -> string;
  is_file : FS -> string -> bool;
  stat_dt : FS -> string -> option Z;
  parent : string -> string;                     (* [p.parents[0]] *)
  mkdir : FS -> string -> bool * FS;
  copy : FS -> string -> string -> bool * FS
}.

Section Loop.

Context {FS : Type} {F : FileSystem FS}.

Definition from_paths : list string :=
  [resource_filename "stata_kernel" "pygments/stata.py";
   resource_filename "stata_kernel" "codemirror/stata.js"].

Definition to_paths : list string :=
  [resource_filename "pygments" "lexers/stata.py";
   resource_filename "notebook"
     "static/components/codemirror/mode/stata/stata.js"].

(** Lines 44-51: the flag [copy]; [None] when a [stat] raises. *)
Definition needs_copy (fs : FS) (from_path to_path : string) : option bool :=
  if is_file fs to_path then
    match stat_dt fs to_path with
    | None => None
    | Some to_path_dt =>
        match stat_dt fs from_path with
        | None => None
        | Some from_path_dt => Some (to_path_dt <? from_path_dt)
        end
    end
  else Some true.

(** Lines 54-58: the guarded copy.  An [OSError] of [mkdir] skips the copy;
    one of either call is dropped. *)
Definition try_copy (fs : FS) (from_path to_path : string)
  : FS * list FsEvent :=
  let '(made, fs1) := mkdir fs (parent to_path) in
  if made then
    let '(_, fs2) := copy fs1 from_path to_path in
    (fs2, [FsMkdir (parent to_path); FsCopy from_path to_path])
  else (fs1, [FsMkdir (parent to_path)]).

(** Lines 43-58: the loop over the pairs of paths. *)
Fixpoint copy_files (fs : FS) (pairs : list (string * string))
  : Outcome unit * FS * list FsEvent :=
  match pairs with
  | [] => (Returned tt, fs, [])
  | (from_path, to_path) :: rest =>
      match needs_copy fs from_path to_path with
      | None => (Raised "OSError", fs, [])
      | Some false => copy_files fs rest
      | Some true =>
          let '(fs1, ev) := try_copy fs from_path to_path in
          let '(o, fs2, ev') := copy_files fs1 rest in
          (o, fs2, (ev ++ ev')%list)
      end
  end.

(** Lines 35-58. *)
Definition copy_syntax_files (fs : FS) : Outcome unit * FS * list FsEvent :=
  copy_files fs (combine from_paths to_paths).

(** Every copy comes right after the [mkdir] of its destination's
    directory. *)
Fixpoint mkdir_before_copy (evs : list FsEvent) : bool :=
  match evs with
  | [] => true
  | FsMkdir d :: FsCopy _ dst :: rest =>
      String.eqb d (parent dst) && mkdir_before_copy rest
  | FsMkdir _ :: rest => mkdir_before_copy rest
  | FsCopy _ _ :: _ => false
  end.

End Loop.

End Bootstrap.

(** Further stand-ins for the demonstration session: an index that
    completes nothing, and a file system that is a list of paths with
    their times. *)
Module Demo2.

#[global] Instance completions : Completions Demo.D := {
  CompletionEnv := unit;
  RComp := unit;
  completions_get_env w before ahead sc := ((tt, PInt 0, before, tt), w);
  completions_get w chunk env rcomp := (PList [], w);
  stata_shutdown w := w
}.

Fixpoint lookup (fs : list (string * Z)) (p : string) : option Z :=
  match fs with
  | [] => None
  | (q, t) :: fs' => if String.eqb q p then Some t else lookup fs' p
  end.

(** The two files the package ships are always there, with time 10; the
    list holds what else is installed. *)
Definition shipped (p : string) : bool :=
  String.eqb p "stata_kernel/pygments/stata.py"
  || String.eqb p "stata_kernel/codemirror/stata.js".

Definition demo_stat (fs : list (string * Z)) (p : string) : option Z :=
  match lookup fs p with
  | Some t => Some t
  | None => if shipped p then Some 10 else None
  end.

#[global] Instance files : Bootstrap.FileSystem (list (string * Z)) := {
  resource_filename pkg name := pkg ++ "/" ++ name;
  is_file fs p := match demo_stat fs p with Some _ => true | None => false end;
  stat_dt := demo_stat;
  parent p := p ++ "/..";
  mkdir fs d := (true, fs);
  copy fs src dst :=
    match demo_stat fs src with
    | Some t => (true, (dst, t + 1) :: fs)
    | None => (false, fs)
    end
}.

(** Both destinations installed after the package's files were written. *)
Definition installed : list (string * Z) :=
  [("pygments/lexers/stata.py", 11);
   ("notebook/static/components/codemirror/mode/stata/stata.js", 11)].

(** A session whose probe passes with output that is no number. *)
Definition garbled : Kernel Demo.D :=
  Demo.kernel0 [(0, "ok"); (0, "not a number")].

(** A kernel about to run the hook, where Stata will print 120. *)
Definition at_hook : Kernel Demo.D :=
  Demo.kernel0 [(0, " 120
")].

(** A kernel with two exported graphs on disk. *)
Definition with_graphs : Kernel Demo.D :=
  init (D := Demo.D)
    (Demo.mkWorld [] PNone
       [("plot.pdf", "%PDF-1.4"); ("plot.svg", "<svg/>");
        ("plot.png", "PNG")])
    tt 80.

(** The demonstration collaborators with an XML reader that finds the
    bare unit in both attributes. *)
Definition unit_only : Collaborators Demo.D :=
  {| CodeManager_new := Demo.demo_new;
     cm_is_complete := cm_is_complete (Collaborators := Demo.demo);
     cm_ends_sc := cm_ends_sc (Collaborators := Demo.demo);
     cm_get_text := cm_get_text (Collaborators := Demo.demo);
     stata_do := Demo.demo_do;
     magics_magic := Demo.demo_magic;
     magics_quit_early := Demo.handled;
     magics_post := magics_post (Collaborators := Demo.demo);
     completions_refresh := completions_refresh (Collaborators := Demo.demo);
     read_text := read_text (Collaborators := Demo.demo);
     read_bytes := read_bytes (Collaborators := Demo.demo);
     ET_root_attrib := fun _ => Some [("width", "pt"); ("height", "pt")];
     Image_open_size := Image_open_size (Collaborators := Demo.demo);
     platform_system := "Linux";
     b64encode := b64encode (Collaborators := Demo.demo) |}.

End Demo2.

(** * Facts about the handler *)

Section KernelFacts.

Context {D : Domain} {C : Collaborators D}.

(** ** Runs of the methods, branch by branch *)

Lemma is_complete_run (code : string) (k : Kernel D) :
  is_complete code k =
  (Returned (cm_is_complete (CodeManager_new code (Some (sc_delimit_mode k)))),
   k, [EvCodeManager code (Some (sc_delimit_mode k))]).
Proof. reflexivity. Qed.

Lemma post_do_hook_run (k : Kernel D) :
  post_do_hook k =
  if probe_rc k =? 0 then
    match PyStr.int (PyStr.strip (probe_res k)) with
    | Some n =>
        (Returned tt, hook_kernel k n, (hook_prefix k ++ [EvRefresh])%list)
    | None =>
        (Raised "ValueError", set_world (snd (probe_trip k)) k, hook_prefix k)
    end
  else
    (Returned tt, hook_kernel k (linesize k),
     (hook_prefix k ++ [EvRefresh])%list).
Proof.
  unfold post_do_hook, hook_kernel, hook_prefix, probe_rc, probe_res,
    probe_trip, probe_event, probe, probe_code.
  unfold bind, new_CodeManager, get_text, do, when, or_raise, refresh, bind,
    emit, ret, gets, modify, raise; cbn.
  destruct (cm_get_text _ (conf k)) as [[t m] e].
  destruct (stata_do k t m e (Some false)) as [[rc res] w].
  cbn [fst snd truthy negb].
  generalize (PyStr.int (PyStr.strip res)); intros parsed.
  destruct (rc =? 0); cbn.
  - destruct parsed; reflexivity.
  - destruct k; reflexivity.
Qed.

Lemma post_do_hook_frame (k : Kernel D) :
  sc_delimit_mode (kernel_of (post_do_hook k)) = sc_delimit_mode k
  /\ execution_count (kernel_of (post_do_hook k)) = execution_count k.
Proof.
  rewrite post_do_hook_run.
  destruct (probe_rc k =? 0); [destruct (PyStr.int _)|]; split; reflexivity.
Qed.

Lemma do_execute_run (code : string) (silent : bool) (k : Kernel D) :
  do_execute code silent k =
  if negb (cm_is_complete (CodeManager_new code (Some (sc_delimit_mode k))))
  then
    (Returned (PDict [("status", PStr "error");
                      ("execution_count", PInt (execution_count k))]),
     k, [EvCodeManager code (Some (sc_delimit_mode k)); hint_event])
  else if truthy (quit_early code k) then
    (Returned (quit_early code k), after_magic code k,
     [EvCodeManager code (Some (sc_delimit_mode k)); EvMagic code])
  else
    match post_do_hook (before_hook code k) with
    | (Returned _, k', evs) =>
        (Returned (return_obj (execution_count k) (session_rc code k)),
         set_sc_delimit_mode (cm_ends_sc (splitter code k)) k',
         (run_prefix code k ++ evs ++ notice_events code silent k)%list)
    | (Raised e, k', evs) => (Raised e, k', (run_prefix code k ++ evs)%list)
    end.
Proof.
  unfold do_execute. unfold bind at 1. rewrite is_complete_run.
  destruct (cm_is_complete _); cbn [negb].
  2: reflexivity.
  unfold bind at 1.
  unfold before_hook, session_rc, round_trip, run_prefix, user_event,
    notice_events, quit_early, splitter, after_magic, magic_code, magic.
  destruct (magics_magic k code) as [code' w1]; cbn [fst snd].
  unfold bind at 1, gets at 1.
  cbn [world set_world].
  destruct (truthy (magics_quit_early w1)) eqn:Hq.
  { reflexivity. }
  unfold bind at 1, gets at 1. cbn [sc_delimit_mode set_world].
  unfold bind at 1, new_CodeManager at 1, bind at 1, emit, ret.
  unfold bind at 1, get_text at 1, bind at 1, emit, bind at 1, gets at 1, ret.
  cbn [conf set_world].
  destruct (cm_get_text _ (conf k)) as [[t m] e].
  unfold bind at 1, do at 1.
  destruct (stata_do _ t m e None) as [[rc res] w2]; cbn [fst snd].
  unfold bind at 1, post at 1.
  unfold bind at 1.
  pose proof (post_do_hook_frame
    (set_world (magics_post (set_world w2 (set_world w1 k)))
       (set_world w2 (set_world w1 k)))) as [Hsc Hec].
  unfold kernel_of in Hsc, Hec.
  destruct (post_do_hook _) as [[[[]|ex] k'] evs]; cbn [fst snd] in Hsc, Hec.
  2: { reflexivity. }
  unfold bind, gets, when, modify, ret, send_response, emit.
  cbn [sc_delimit_mode set_world] in Hsc, Hec. rewrite Hsc.
  destruct (negb silent && _); cbn; rewrite ?Hec; reflexivity.
Qed.

(** The verdict of the completeness check, read off its run. *)
Lemma is_complete_outcome (code : string) (k : Kernel D) (b : bool) :
  outcome_of (is_complete code k) = Returned b <->
  cm_is_complete (CodeManager_new code (Some (sc_delimit_mode k))) = b.
Proof.
  rewrite is_complete_run. unfold outcome_of. cbn.
  split; [intros H; injection H; auto | intros ->; reflexivity].
Qed.

(** ** Counting events *)

Lemma count_app (p : Event D -> bool) (l1 l2 : list (Event D)) :
  count p (l1 ++ l2) = (count p l1 + count p l2)%nat.
Proof.
  unfold count. rewrite filter_app, length_app. reflexivity.
Qed.

Lemma user_event_is_do (code : string) (k : Kernel D) :
  exists t m e, user_event code k = EvDo t m e None.
Proof.
  unfold user_event. destruct (cm_get_text _ _) as [[t m] e]. eauto.
Qed.

Lemma probe_event_is_do (k : Kernel D) :
  exists t m e,
    cm_get_text probe (conf k) = (t, m, e)
    /\ probe_event k = EvDo t m e (Some false).
Proof.
  unfold probe_event. destruct (cm_get_text _ _) as [[t m] e]. eauto.
Qed.

Lemma delimiter_notice_is_notice (b : bool) :
  is_notice (D := D) (EvSend "stream" (delimiter_notice b)) = true.
Proof. destruct b; reflexivity. Qed.

(** A block that runs: the events of the hook, whatever its outcome. *)
Lemma hook_events (k : Kernel D) :
  exists tl, events_of (post_do_hook k) = (hook_prefix k ++ tl)%list
             /\ (tl = [] \/ tl = [EvRefresh]).
Proof.
  rewrite post_do_hook_run.
  destruct (probe_rc k =? 0); [destruct (PyStr.int _)|];
    unfold events_of; cbn [snd].
  - exists [EvRefresh]. auto.
  - exists []. rewrite app_nil_r. auto.
  - exists [EvRefresh]. auto.
Qed.

Lemma count_run_prefix (code : string) (k : Kernel D) :
  count is_notice (run_prefix code k) = 0%nat
  /\ count is_do (run_prefix code k) = 1%nat.
Proof.
  unfold run_prefix. destruct (user_event_is_do code k) as (t & m & e & ->).
  split; reflexivity.
Qed.

Lemma count_hook_prefix (k : Kernel D) :
  count is_notice (hook_prefix k) = 0%nat
  /\ count is_do (hook_prefix k) = 1%nat.
Proof.
  unfold hook_prefix. destruct (probe_event_is_do k) as (t & m & e & _ & ->).
  split; reflexivity.
Qed.

Lemma count_hook_events (k : Kernel D) :
  count is_notice (events_of (post_do_hook k)) = 0%nat
  /\ count is_do (events_of (post_do_hook k)) = 1%nat.
Proof.
  destruct (hook_events k) as (tl & -> & Htl).
  rewrite !count_app.
  destruct (count_hook_prefix k) as [-> ->].
  destruct Htl as [-> | ->]; split; reflexivity.
Qed.

Lemma count_notice_events (code : string) (silent : bool) (k : Kernel D) :
  count is_notice (notice_events code silent k) =
  (if negb silent
      && negb (Bool.eqb (cm_ends_sc (splitter code k)) (sc_delimit_mode k))
   then 1 else 0)%nat
  /\ count is_do (notice_events code silent k) = 0%nat.
Proof.
  unfold notice_events.
  destruct (negb silent && _); split; try reflexivity.
  unfold count. cbn [filter]. rewrite delimiter_notice_is_notice. reflexivity.
Qed.

(** A block that runs and whose hook returns or raises: outcome, kernel and
    events of [do_execute] in terms of the hook's. *)
Lemma do_execute_runs (code : string) (silent : bool) (k : Kernel D) :
  outcome_of (is_complete code k) = Returned true ->
  truthy (quit_early code k) = false ->
  do_execute code silent k =
  match post_do_hook (before_hook code k) with
  | (Returned _, k', evs) =>
      (Returned (return_obj (execution_count k) (session_rc code k)),
       set_sc_delimit_mode (cm_ends_sc (splitter code k)) k',
       (run_prefix code k ++ evs ++ notice_events code silent k)%list)
  | (Raised e, k', evs) => (Raised e, k', (run_prefix code k ++ evs)%list)
  end.
Proof.
  intros Hc Hq. apply is_complete_outcome in Hc.
  rewrite do_execute_run, Hc, Hq. reflexivity.
Qed.

(** ** The claims *)

(** C8.  A new kernel starts in newline mode: [sc_delimit_mode] is [False]
    after [__init__], so the first completeness check builds its
    [CodeManager] with [False], and so does every [CodeManager] that the
    first [do_execute] builds with a mode. *)
Theorem init_newline_mode (w : World D) (c : Conf D) (ls : Z)
  (code : string) (silent : bool) :
  sc_delimit_mode (init w c ls) = false
  /\ events_of (is_complete code (init w c ls))
     = [EvCodeManager code (Some false)]
  /\ forall code' sc,
       In (EvCodeManager code' (Some sc))
          (events_of (do_execute code silent (init w c ls))) ->
       sc = false.
Proof.
  split; [reflexivity|]. split; [reflexivity|].
  intros code' sc. rewrite do_execute_run.
  set (k := init w c ls).
  destruct (negb _).
  { unfold events_of, hint_event; cbn [snd].
    intros [H | [H | []]]; [injection H; auto | discriminate]. }
  destruct (truthy _).
  { unfold events_of; cbn [snd].
    intros [H | [H | []]]; [injection H; auto | discriminate]. }
  destruct (hook_events (before_hook code k)) as (tl & Hev & Htl).
  unfold events_of in Hev.
  assert (Hpre : forall l, In (EvCodeManager code' (Some sc))
                   (run_prefix code k ++ snd (post_do_hook (before_hook code k))
                    ++ l) ->
                 In (EvCodeManager code' (Some sc)) l \/ sc = false).
  { intros l. rewrite Hev. unfold run_prefix, hook_prefix.
    destruct (user_event_is_do code k) as (t & m & e & ->).
    destruct (probe_event_is_do (before_hook code k))
      as (t' & m' & e' & _ & ->).
    cbn [app In]. rewrite in_app_iff.
    intros H.
    repeat match type of H with
           | _ \/ _ => destruct H as [H | H]
           end;
      try discriminate; try (injection H; auto; fail); auto.
    destruct Htl as [-> | ->]; cbn in H; intuition discriminate. }
  destruct (post_do_hook _) as [[[[]|ex] k'] evs]; unfold events_of;
    cbn [snd] in *.
  - intros H. apply Hpre in H. destruct H as [H | H]; [|exact H].
    unfold notice_events in H. destruct (negb silent && _); cbn in H.
    + destruct H as [H | []]. discriminate.
    + destruct H.
  - intros H. specialize (Hpre []). rewrite app_nil_r in Hpre.
    apply Hpre in H. destruct H as [[] | H]. exact H.
Qed.

(** C4.  [do_is_complete] answers [{'status': 'complete'}] exactly when
    [is_complete] holds under the current delimiter mode, and otherwise
    [{'status': 'incomplete', 'indent': '    '}], the indent being four
    spaces whatever the input; it always returns and leaves the kernel as
    it was. *)
Theorem do_is_complete_verdict (code : string) (k : Kernel D) :
  (outcome_of (do_is_complete code k)
   = Returned (PDict [("status", PStr "complete")])
   <-> outcome_of (is_complete code k) = Returned true)
  /\ (outcome_of (do_is_complete code k)
      = Returned (PDict [("status", PStr "incomplete");
                         ("indent", PStr "    ")])
      <-> outcome_of (is_complete code k) = Returned false)
  /\ (exists b, outcome_of (is_complete code k) = Returned b)
  /\ kernel_of (do_is_complete code k) = k.
Proof.
  unfold do_is_complete, bind. rewrite !is_complete_run.
  unfold outcome_of, kernel_of.
  destruct (cm_is_complete _); cbn.
  - repeat split; try discriminate; eauto.
  - repeat split; try discriminate; eauto.
Qed.

(** C2, amended.  For a block the completeness check rejects, [do_execute]
    sends the hint, returns the error status with the current execution
    count without raising, and leaves the kernel as it was; the one
    [CodeManager] it builds is the one of the completeness check itself;
    [get_text] and the session are not called. *)
Theorem incomplete_block_is_gated (code : string) (silent : bool)
  (k : Kernel D) :
  outcome_of (is_complete code k) = Returned false ->
  outcome_of (do_execute code silent k)
  = Returned (PDict [("status", PStr "error");
                     ("execution_count", PInt (execution_count k))])
  /\ kernel_of (do_execute code silent k) = k
  /\ events_of (do_execute code silent k)
     = [EvCodeManager code (Some (sc_delimit_mode k)); hint_event]
  /\ count is_code_manager (events_of (do_execute code silent k)) = 1%nat
  /\ count is_get_text (events_of (do_execute code silent k)) = 0%nat
  /\ count is_do (events_of (do_execute code silent k)) = 0%nat.
Proof.
  intros Hc. apply is_complete_outcome in Hc.
  rewrite do_execute_run, Hc. cbn [negb].
  repeat split.
Qed.

(** C9.  When the magics handle a complete block in full ([quit_early] is
    set), [do_execute] returns [quit_early] at once: its only events are the
    completeness check and the call of the magics, so the session's [do] is
    not called, no delimiter notice is sent, and [sc_delimit_mode] is what
    it was. *)
Theorem magic_handled_block_returns_early (code : string) (silent : bool)
  (k : Kernel D) :
  outcome_of (is_complete code k) = Returned true ->
  truthy (quit_early code k) = true ->
  outcome_of (do_execute code silent k) = Returned (quit_early code k)
  /\ events_of (do_execute code silent k)
     = [EvCodeManager code (Some (sc_delimit_mode k)); EvMagic code]
  /\ count is_do (events_of (do_execute code silent k)) = 0%nat
  /\ count is_notice (events_of (do_execute code silent k)) = 0%nat
  /\ sc_delimit_mode (kernel_of (do_execute code silent k))
     = sc_delimit_mode k.
Proof.
  intros Hc Hq. apply is_complete_outcome in Hc.
  rewrite do_execute_run, Hc, Hq. cbn [negb].
  repeat split.
Qed.

(** C1, amended.  For a complete block that the magics do not handle in
    full: when [do_execute] returns a reply, [sc_delimit_mode] afterwards
    is [cm.ends_sc] of the splitter, whatever the session's return code;
    when it raises, [sc_delimit_mode] is what it was. *)
Theorem delimiter_mode_committed_after_run (code : string) (silent : bool)
  (k : Kernel D) :
  outcome_of (is_complete code k) = Returned true ->
  truthy (quit_early code k) = false ->
  (forall r, outcome_of (do_execute code silent k) = Returned r ->
             sc_delimit_mode (kernel_of (do_execute code silent k))
             = cm_ends_sc (splitter code k))
  /\ (forall e, outcome_of (do_execute code silent k) = Raised e ->
                sc_delimit_mode (kernel_of (do_execute code silent k))
                = sc_delimit_mode k).
Proof.
  intros Hc Hq. rewrite (do_execute_runs code silent k Hc Hq).
  destruct (post_do_hook_frame (before_hook code k)) as [Hsc _].
  unfold kernel_of, outcome_of in *.
  destruct (post_do_hook _) as [[[[]|ex] k'] evs]; cbn [fst snd] in *.
  - split; [reflexivity | discriminate].
  - split; [discriminate | intros _ _; exact Hsc].
Qed.

(** C3, amended.  For a complete block that the magics do not handle in
    full and for which [do_execute] returns: the number of delimiter
    notices among the events is one when the call is not silent and
    [cm.ends_sc] differs from the prior mode, and zero otherwise; the one
    notice is the stdout line for [cm.ends_sc]; and [cm.ends_sc] is the
    mode afterwards. *)
Theorem delimiter_notice_when_changed (code : string) (silent : bool)
  (k : Kernel D) (r : PyVal) :
  outcome_of (is_complete code k) = Returned true ->
  truthy (quit_early code k) = false ->
  outcome_of (do_execute code silent k) = Returned r ->
  count is_notice (events_of (do_execute code silent k))
  = (if negb silent
        && negb (Bool.eqb (cm_ends_sc (splitter code k)) (sc_delimit_mode k))
     then 1 else 0)%nat
  /\ (negb silent
      && negb (Bool.eqb (cm_ends_sc (splitter code k)) (sc_delimit_mode k))
      = true ->
      In (EvSend "stream"
            (PDict [("text",
                     PStr ("delimiter now "
                           ++ if cm_ends_sc (splitter code k)
                              then ";" else "cr"));
                    ("name", PStr "stdout")]))
         (events_of (do_execute code silent k)))
  /\ sc_delimit_mode (kernel_of (do_execute code silent k))
     = cm_ends_sc (splitter code k).
Proof.
  intros Hc Hq. rewrite (do_execute_runs code silent k Hc Hq).
  destruct (count_hook_events (before_hook code k)) as [Hn _].
  unfold kernel_of, outcome_of, events_of in *.
  destruct (post_do_hook _) as [[[[]|ex] k'] evs]; cbn [fst snd] in *;
    [intros _ | discriminate].
  split; [|split].
  - rewrite !count_app, Hn.
    destruct (count_run_prefix code k) as [-> _].
    destruct (count_notice_events code silent k) as [-> _]. reflexivity.
  - intros Hb. rewrite !in_app_iff. right. right.
    unfold notice_events. rewrite Hb. left. reflexivity.
  - reflexivity.
Qed.

(** C5.  For a complete block that the magics do not handle in full, the
    reply follows the session's return code: nonzero gives status [error]
    with the execution count; zero gives status [ok] with an empty payload
    list and an empty [user_expressions].  A reply is returned whenever the
    probe of the hook fails or its output reads as an integer. *)
Theorem reply_status_follows_return_code (code : string) (silent : bool)
  (k : Kernel D) :
  outcome_of (is_complete code k) = Returned true ->
  truthy (quit_early code k) = false ->
  (forall r, outcome_of (do_execute code silent k) = Returned r ->
     (session_rc code k <> 0 ->
      r = PDict [("execution_count", PInt (execution_count k));
                 ("status", PStr "error")])
     /\ (session_rc code k = 0 ->
         r = PDict [("execution_count", PInt (execution_count k));
                    ("status", PStr "ok");
                    ("payload", PList []);
                    ("user_expressions", PDict [])]))
  /\ (probe_rc (before_hook code k) <> 0
      \/ PyStr.int (PyStr.strip (probe_res (before_hook code k))) <> None ->
      exists r, outcome_of (do_execute code silent k) = Returned r).
Proof.
  intros Hc Hq. rewrite (do_execute_runs code silent k Hc Hq).
  split.
  - intros r.
    destruct (post_do_hook _) as [[[[]|ex] k'] evs]; unfold outcome_of;
      cbn [fst snd]; [|discriminate].
    intros H; injection H as <-.
    unfold return_obj, truthy.
    split; intros Hrc.
    + apply Z.eqb_neq in Hrc. rewrite Hrc. reflexivity.
    + rewrite Hrc. reflexivity.
  - intros Hp. rewrite post_do_hook_run.
    destruct (probe_rc _ =? 0) eqn:Hrc.
    + destruct (PyStr.int _).
      * eexists; reflexivity.
      * apply Z.eqb_eq in Hrc. destruct Hp as [Hp | Hp]; congruence.
    + eexists; reflexivity.
Qed.

(** C6.  For a complete block that the magics do not handle in full,
    [do_execute] runs the line-size probe after the user's block: the
    events start with those of the block and go on with the probe's, whose
    [do] is called with [display=False]; these are the two calls of [do];
    and the stored line size afterwards is the integer read from the
    probe's output when the probe's return code is zero and the output
    reads as one, and the line size before the call otherwise. *)
Theorem linesize_probe_after_run (code : string) (silent : bool)
  (k : Kernel D) :
  outcome_of (is_complete code k) = Returned true ->
  truthy (quit_early code k) = false ->
  let kh := before_hook code k in
  (exists tl, events_of (do_execute code silent k)
              = (run_prefix code k ++ hook_prefix kh ++ tl)%list)
  /\ (exists t m e, cm_get_text probe (conf k) = (t, m, e)
                    /\ probe_event kh = EvDo t m e (Some false))
  /\ count is_do (events_of (do_execute code silent k)) = 2%nat
  /\ linesize (kernel_of (do_execute code silent k))
     = (if probe_rc kh =? 0 then
          match PyStr.int (PyStr.strip (probe_res kh)) with
          | Some n => n
          | None => linesize k
          end
        else linesize k).
Proof.
  intros Hc Hq kh. rewrite (do_execute_runs code silent k Hc Hq). fold kh.
  destruct (hook_events kh) as (tl & Hev & _).
  destruct (count_hook_events kh) as [_ Hd].
  destruct (count_run_prefix code k) as [_ Hp].
  destruct (count_notice_events code silent k) as [_ Hn].
  assert (Hls : linesize (kernel_of (post_do_hook kh))
                = (if probe_rc kh =? 0 then
                     match PyStr.int (PyStr.strip (probe_res kh)) with
                     | Some n => n
                     | None => linesize k
                     end
                   else linesize k)).
  { rewrite post_do_hook_run.
    destruct (probe_rc kh =? 0); [destruct (PyStr.int _)|]; reflexivity. }
  unfold events_of, kernel_of in *.
  destruct (post_do_hook kh) as [[[[]|ex] k'] evs]; cbn [fst snd] in *.
  - split; [|split; [|split]].
    + exists (tl ++ notice_events code silent k)%list.
      rewrite Hev, <- app_assoc. reflexivity.
    + exact (probe_event_is_do kh).
    + rewrite !count_app, Hd, Hp, Hn. reflexivity.
    + exact Hls.
  - split; [|split; [|split]].
    + exists tl. rewrite Hev. reflexivity.
    + exact (probe_event_is_do kh).
    + rewrite !count_app, Hd, Hp. reflexivity.
    + exact Hls.
Qed.

(** C10.  [send_image] sends at most one message per call, a
    [display_data] one, and only for a path that ends in [.svg], [.png] or
    [.pdf]; for any other path it returns, without raising, having sent
    nothing and changed nothing. *)
Theorem send_image_at_most_one (graph_path : string) (k : Kernel D) :
  (List.length (events_of (send_image graph_path k)) <= 1)%nat
  /\ (forall e, In e (events_of (send_image graph_path k)) ->
                exists content, e = EvSend "display_data" content)
  /\ (events_of (send_image graph_path k) <> [] ->
      PyStr.endswith graph_path ".svg" || PyStr.endswith graph_path ".png"
      || PyStr.endswith graph_path ".pdf" = true)
  /\ (PyStr.endswith graph_path ".svg" || PyStr.endswith graph_path ".png"
      || PyStr.endswith graph_path ".pdf" = false ->
      send_image graph_path k = (Returned tt, k, [])).
Proof.
  unfold send_image.
  destruct (PyStr.endswith graph_path ".svg");
    [|destruct (PyStr.endswith graph_path ".png");
      [|destruct (PyStr.endswith graph_path ".pdf")]];
    cbn [orb].
  - unfold bind, gets, or_raise, send_response, emit, ret, raise, events_of.
    destruct (read_text _ _) as [img|]; cbn [snd fst].
    2: { cbn. repeat split; try lia; try tauto; discriminate. }
    destruct (ET_root_attrib img) as [a|]; cbn [snd fst].
    2: { cbn. repeat split; try lia; try tauto; discriminate. }
    destruct (attrib_get a "width") as [ws|]; cbn [snd fst].
    2: { cbn. repeat split; try lia; try tauto; discriminate. }
    destruct (PyStr.int (PyStr.drop_last2 ws)) as [wd|]; cbn [snd fst].
    2: { cbn. repeat split; try lia; try tauto; discriminate. }
    destruct (attrib_get a "height") as [hs|]; cbn [snd fst].
    2: { cbn. repeat split; try lia; try tauto; discriminate. }
    destruct (PyStr.int (PyStr.drop_last2 hs)) as [ht|]; cbn [snd fst].
    2: { cbn. repeat split; try lia; try tauto; discriminate. }
    cbn. repeat split; try lia; try discriminate.
    intros e [<- | []]. eauto.
  - unfold bind, gets, or_raise, send_response, emit, ret, raise, events_of.
    destruct (Image_open_size _ _) as [[wd ht]|]; cbn [snd fst].
    2: { cbn. repeat split; try lia; try tauto; discriminate. }
    destruct (read_bytes _ _) as [raw|]; cbn [snd fst].
    2: { cbn. repeat split; try lia; try tauto; discriminate. }
    cbn. repeat split; try lia; try discriminate.
    intros e [<- | []]. eauto.
  - unfold bind, gets, or_raise, send_response, emit, ret, raise, events_of.
    destruct (read_bytes _ _) as [raw|]; cbn [snd fst].
    2: { cbn. repeat split; try lia; try tauto; discriminate. }
    cbn. repeat split; try lia; try discriminate.
    intros e [<- | []]. eauto.
  - unfold ret, events_of. cbn.
    repeat split; try lia; try tauto.
Qed.

End KernelFacts.

(** * Facts about the completeness checker *)

Section ScannerFacts.

Import Scanner.

Variable cfg : Config.
Hypothesis cfg_ok : well_formed cfg = true.

Lemma prefix_app_space (m w : string) :
  no_space m = true -> all_space w = true ->
  forall s, String.prefix m (s ++ w) = String.prefix m s.
Proof.
  intros Hm Hw. induction m as [|a m IH]; intros s.
  - destruct s, w; reflexivity.
  - cbn in Hm. apply andb_prop in Hm as [Ha Hm].
    destruct s as [|b s]; cbn [append].
    + destruct w as [|c w]; [reflexivity|].
      cbn in Hw. apply andb_prop in Hw as [Hc _].
      cbn. destruct (ascii_dec a c) as [->|]; [|reflexivity].
      rewrite Hc in Ha. discriminate.
    + cbn. destruct (ascii_dec a b); [apply IH; assumption | reflexivity].
Qed.

Lemma match_any_app (ms : list string) (w : string) :
  forallb marker_ok ms = true -> all_space w = true ->
  forall s, match_any ms (s ++ w) = match_any ms s.
Proof.
  intros Hms Hw s. induction ms as [|m ms IH]; [reflexivity|].
  cbn in Hms. apply andb_prop in Hms as [Hm Hms].
  unfold marker_ok in Hm. apply andb_prop in Hm as [_ Hm].
  cbn. rewrite (prefix_app_space m w Hm Hw), (IH Hms). reflexivity.
Qed.

Lemma match_any_space (ms : list string) (c : ascii) (w : string) :
  forallb marker_ok ms = true -> PyStr.is_space c = true ->
  match_any ms (String c w) = None.
Proof.
  intros Hms Hc. induction ms as [|m ms IH]; [reflexivity|].
  cbn in Hms. apply andb_prop in Hms as [Hm Hms].
  unfold marker_ok in Hm. apply andb_prop in Hm as [Hne Hm].
  destruct m as [|a m]; [discriminate|].
  cbn in Hm. apply andb_prop in Hm as [Ha _].
  cbn. destruct (ascii_dec a c) as [->|]; [|exact (IH Hms)].
  rewrite Hc in Ha. discriminate.
Qed.

(** The parts of [well_formed]. *)
Lemma well_formed_parts :
  forallb marker_ok (line_comment cfg) = true
  /\ forallb marker_ok (block_comment_start cfg) = true
  /\ forallb marker_ok (block_comment_end cfg) = true
  /\ forallb marker_ok (continuation cfg) = true
  /\ forallb marker_ok (directive cfg) = true
  /\ forallb marker_ok (block_open cfg) = true
  /\ forallb marker_ok (block_close cfg) = true
  /\ PyStr.is_space (quote cfg) = false.
Proof.
  pose proof cfg_ok as H. unfold well_formed in H.
  repeat (apply andb_prop in H as [H ?]).
  repeat split; try assumption.
  destruct (PyStr.is_space (quote cfg)); [discriminate | reflexivity].
Qed.

(** A step inside the text does not see whitespace put after the text. *)
Lemma step_app (st : State) (c : ascii) (s w : string) :
  all_space w = true ->
  step cfg st (String c s ++ w) = step cfg st (String c s).
Proof.
  intros Hw.
  destruct well_formed_parts as (H1 & H2 & H3 & H4 & H5 & H6 & H7 & _).
  change (String c s ++ w) with (String c (s ++ w)).
  unfold step, step_normal.
  change (String c (s ++ w)) with (String c s ++ w).
  rewrite !match_any_app by assumption.
  reflexivity.
Qed.

Lemma scan_app (w : string) :
  all_space w = true ->
  forall s st, scan cfg st (s ++ w) = scan cfg (scan cfg st s) w.
Proof.
  intros Hw. induction s as [|c s IH]; intros st; [reflexivity|].
  change (String c s ++ w) with (String c (s ++ w)).
  cbn [scan].
  change (String c (s ++ w)) with (String c s ++ w).
  rewrite step_app by assumption. apply IH.
Qed.

(** Whitespace keeps a verdict of completeness. *)
Lemma step_space_accepting (st : State) (c : ascii) (w : string) :
  PyStr.is_space c = true -> accepting st = true ->
  accepting (step cfg st (String c w)) = true.
Proof.
  intros Hc Hst.
  destruct well_formed_parts as (H1 & H2 & H3 & H4 & H5 & H6 & H7 & Hq).
  unfold step. destruct st as [l n m [|k]]; cbn [skip lex nesting mode].
  2: exact Hst.
  unfold accepting in Hst; cbn [lex nesting] in Hst.
  destruct l; try discriminate.
  - unfold step_normal.
    rewrite !match_any_space by assumption.
    destruct (Ascii.eqb_spec c (quote cfg)) as [->|_].
    + rewrite Hc in Hq. discriminate.
    + exact Hst.
  - destruct (Ascii.eqb c newline); exact Hst.
  - destruct (Ascii.eqb c newline); exact Hst.
Qed.

Lemma scan_space_accepting (w : string) :
  all_space w = true ->
  forall st, accepting st = true -> accepting (scan cfg st w) = true.
Proof.
  induction w as [|c w IH]; intros Hw st Hst; [exact Hst|].
  cbn in Hw. apply andb_prop in Hw as [Hc Hw].
  cbn [scan]. apply IH; [assumption|].
  apply step_space_accepting; assumption.
Qed.

Lemma isComplete_app_space (text w : string) (m : Mode) :
  all_space w = true ->
  isComplete cfg text m = true -> isComplete cfg (text ++ w) m = true.
Proof.
  intros Hw H. unfold isComplete in *.
  rewrite scan_app by assumption.
  apply scan_space_accepting; assumption.
Qed.

End ScannerFacts.

(** The verdicts and final modes of the scenarios of the design document
    (section 8), under [stata_config]. *)
Lemma scanner_scenarios :
  Scanner.isComplete Scanner.stata_config "di 1" Scanner.Newline = true
  /\ Scanner.finalMode Scanner.stata_config "di 1" Scanner.Newline
     = Scanner.Newline
  /\ Scanner.isComplete Scanner.stata_config "foreach i in 1 2 {"
       Scanner.Newline = false
  /\ Scanner.isComplete Scanner.stata_config Demo.two_statements
       Scanner.Newline = true
  /\ Scanner.finalMode Scanner.stata_config Demo.two_statements
       Scanner.Newline = Scanner.Explicit
  /\ Scanner.isComplete Scanner.stata_config
       ("di " ++ String "034"%char "abc") Scanner.Newline = false
  /\ Scanner.isComplete Scanner.stata_config "* comment only"
       Scanner.Newline = true
  /\ Scanner.isComplete Scanner.stata_config "#delimit ;"
       Scanner.Newline = true
  /\ Scanner.finalMode Scanner.stata_config "#delimit ;"
       Scanner.Newline = Scanner.Explicit.
Proof. vm_compute. repeat split. Qed.

(** C7.  Completeness is monotone under appended whitespace.  With a
    [CodeManager] whose [is_complete] is the checker of the design document
    under a well-formed configuration, for every text, every current
    delimiter mode and every whitespace-only [w]: if [is_complete(text)]
    is true then so is [is_complete(text + w)]. *)
Theorem is_complete_monotone_whitespace {D : Domain} {C : Collaborators D}
  (cfg : Scanner.Config) (text w : string) (k : Kernel D) :
  Scanner.well_formed cfg = true ->
  (forall code sc,
     cm_is_complete (CodeManager_new code (Some sc))
     = Scanner.isComplete cfg code (Scanner.mode_of_sc sc)) ->
  Scanner.all_space w = true ->
  outcome_of (is_complete text k) = Returned true ->
  outcome_of (is_complete (text ++ w) k) = Returned true.
Proof.
  intros Hcfg Hcm Hw H.
  apply is_complete_outcome in H. apply is_complete_outcome.
  rewrite Hcm in *.
  apply isComplete_app_space; assumption.
Qed.

(** * The handler on the demonstration session *)

(** C2: on the open loop the completeness check fails, and the events of
    [do_execute] hold the construction of a [CodeManager]. *)
Lemma incomplete_block_builds_code_manager :
  outcome_of (is_complete Demo.open_block Demo.passing) = Returned false
  /\ In (EvCodeManager Demo.open_block (Some false))
        (events_of (do_execute Demo.open_block false Demo.passing))
  /\ count is_code_manager
       (events_of (do_execute Demo.open_block false Demo.passing)) <> 0%nat.
Proof.
  vm_compute. split; [reflexivity|]. split; [left; reflexivity | discriminate].
Qed.

(** The gate on the open loop. *)
Lemma incomplete_block_is_gated_witness :
  outcome_of (is_complete Demo.open_block Demo.passing) = Returned false
  /\ events_of (do_execute Demo.open_block false Demo.passing)
     = [EvCodeManager Demo.open_block (Some (sc_delimit_mode Demo.passing));
        hint_event].
Proof.
  split; [vm_compute; reflexivity|].
  apply (incomplete_block_is_gated (C := Demo.demo)
           Demo.open_block false Demo.passing).
  vm_compute; reflexivity.
Defined.

(** A magic that the dispatcher handles in full. *)
Lemma magic_handled_block_returns_early_witness :
  outcome_of (is_complete "%delimit" Demo.passing) = Returned true
  /\ truthy (quit_early "%delimit" Demo.passing) = true
  /\ count is_do (events_of (do_execute "%delimit" false Demo.passing))
     = 0%nat.
Proof.
  split; [vm_compute; reflexivity|]. split; [vm_compute; reflexivity|].
  apply (magic_handled_block_returns_early (C := Demo.demo)
           "%delimit" false Demo.passing);
    vm_compute; reflexivity.
Defined.

(** C1: the user's block fails in the session, and the delimiter mode has
    changed all the same. *)
Lemma failed_round_trip_commits_mode :
  outcome_of (is_complete Demo.delimit_block Demo.failing) = Returned true
  /\ session_rc Demo.delimit_block Demo.failing = 199
  /\ sc_delimit_mode Demo.failing = false
  /\ sc_delimit_mode
       (kernel_of (do_execute Demo.delimit_block false Demo.failing)) = true.
Proof. vm_compute. repeat split. Qed.

(** The same run, read through the amended statement. *)
Lemma delimiter_mode_committed_after_run_witness :
  outcome_of (is_complete Demo.delimit_block Demo.failing) = Returned true
  /\ truthy (quit_early Demo.delimit_block Demo.failing) = false
  /\ outcome_of (do_execute Demo.delimit_block false Demo.failing)
     = Returned (return_obj 0 199)
  /\ sc_delimit_mode
       (kernel_of (do_execute Demo.delimit_block false Demo.failing))
     = cm_ends_sc (splitter Demo.delimit_block Demo.failing).
Proof.
  split; [vm_compute; reflexivity|]. split; [vm_compute; reflexivity|].
  split; [vm_compute; reflexivity|].
  apply (proj1 (delimiter_mode_committed_after_run (C := Demo.demo)
                  Demo.delimit_block false Demo.failing
                  ltac:(vm_compute; reflexivity)
                  ltac:(vm_compute; reflexivity))
               (return_obj 0 199)).
  vm_compute; reflexivity.
Defined.

(** C3: a silent run of a block that changes the mode sends no notice. *)
Lemma silent_run_sends_no_notice :
  outcome_of (is_complete Demo.delimit_block Demo.passing) = Returned true
  /\ cm_ends_sc (splitter Demo.delimit_block Demo.passing) = true
  /\ sc_delimit_mode Demo.passing = false
  /\ outcome_of (do_execute Demo.delimit_block true Demo.passing)
     = Returned (return_obj 0 0)
  /\ count is_notice
       (events_of (do_execute Demo.delimit_block true Demo.passing)) = 0%nat.
Proof. vm_compute. repeat split. Qed.

(** The same block run aloud: the mode is committed. *)
Lemma delimiter_notice_when_changed_witness :
  outcome_of (is_complete Demo.delimit_block Demo.passing) = Returned true
  /\ truthy (quit_early Demo.delimit_block Demo.passing) = false
  /\ outcome_of (do_execute Demo.delimit_block false Demo.passing)
     = Returned (return_obj 0 0)
  /\ sc_delimit_mode
       (kernel_of (do_execute Demo.delimit_block false Demo.passing))
     = cm_ends_sc (splitter Demo.delimit_block Demo.passing).
Proof.
  split; [vm_compute; reflexivity|]. split; [vm_compute; reflexivity|].
  split; [vm_compute; reflexivity|].
  apply (delimiter_notice_when_changed (C := Demo.demo)
           Demo.delimit_block false Demo.passing (return_obj 0 0));
    vm_compute; reflexivity.
Defined.

(** A failing block still gets its reply. *)
Lemma reply_status_follows_return_code_witness :
  outcome_of (is_complete Demo.delimit_block Demo.failing) = Returned true
  /\ truthy (quit_early Demo.delimit_block Demo.failing) = false
  /\ exists r,
       outcome_of (do_execute Demo.delimit_block false Demo.failing)
       = Returned r.
Proof.
  split; [vm_compute; reflexivity|]. split; [vm_compute; reflexivity|].
  apply (proj2 (reply_status_follows_return_code (C := Demo.demo)
                  Demo.delimit_block false Demo.failing
                  ltac:(vm_compute; reflexivity)
                  ltac:(vm_compute; reflexivity))).
  right. vm_compute. discriminate.
Defined.

(** One line of code: the user's round trip and the probe's. *)
Lemma linesize_probe_after_run_witness :
  outcome_of (is_complete "di 1" Demo.passing) = Returned true
  /\ truthy (quit_early "di 1" Demo.passing) = false
  /\ count is_do (events_of (do_execute "di 1" false Demo.passing)) = 2%nat.
Proof.
  split; [vm_compute; reflexivity|]. split; [vm_compute; reflexivity|].
  pose proof (linesize_probe_after_run (C := Demo.demo)
                "di 1" false Demo.passing
                ltac:(vm_compute; reflexivity)
                ltac:(vm_compute; reflexivity)) as H.
  cbv zeta in H. apply H.
Defined.

(** Two blanks after a complete line. *)
Lemma is_complete_monotone_whitespace_witness :
  Scanner.well_formed Scanner.stata_config = true
  /\ Scanner.all_space "  " = true
  /\ outcome_of (is_complete "di 1" Demo.passing) = Returned true
  /\ outcome_of (is_complete ("di 1" ++ "  ") Demo.passing) = Returned true.
Proof.
  split; [vm_compute; reflexivity|]. split; [vm_compute; reflexivity|].
  split; [vm_compute; reflexivity|].
  apply (is_complete_monotone_whitespace (C := Demo.demo)
           Scanner.stata_config "di 1" "  " Demo.passing).
  - vm_compute; reflexivity.
  - intros code sc. reflexivity.
  - vm_compute; reflexivity.
  - vm_compute; reflexivity.
Defined.

(** * Further facts *)

(** ** Strings *)

Section StringFacts.

Import PyStr.

Lemma str_app_assoc (a b c : string) : (a ++ b) ++ c = a ++ (b ++ c).
Proof.
  induction a as [|x a IH]; [reflexivity | cbn; rewrite IH; reflexivity].
Qed.

Lemma rev_onto_app (s acc : string) : rev_onto s acc = rev s ++ acc.
Proof.
  unfold rev. revert acc.
  induction s as [|c s IH]; intros acc; [reflexivity|].
  cbn [rev_onto]. rewrite IH, (IH (String c EmptyString)).
  rewrite str_app_assoc. reflexivity.
Qed.

Lemma rev_cons (c : ascii) (s : string) :
  rev (String c s) = rev s ++ String c EmptyString.
Proof. unfold rev at 1. cbn [rev_onto]. apply rev_onto_app. Qed.

Lemma append_nil_r (s : string) : s ++ EmptyString = s.
Proof.
  induction s as [|c s IH]; [reflexivity | cbn; rewrite IH; reflexivity].
Qed.

Lemma rev_app (a b : string) : rev (a ++ b) = rev b ++ rev a.
Proof.
  induction a as [|c a IH]; cbn [append].
  - rewrite append_nil_r. reflexivity.
  - rewrite !rev_cons, IH, str_app_assoc. reflexivity.
Qed.

Lemma rev_involutive (s : string) : rev (rev s) = s.
Proof.
  induction s as [|c s IH]; [reflexivity|].
  rewrite rev_cons, rev_app, IH. reflexivity.
Qed.

Lemma prefix_spec (a b : string) :
  String.prefix a b = true <-> exists c, b = a ++ c.
Proof.
  revert b. induction a as [|x a IH]; intros b.
  - split; [intros _; exists b; reflexivity | destruct b; reflexivity].
  - destruct b as [|y b]; cbn.
    + split; [discriminate | intros [c H]; discriminate].
    + destruct (ascii_dec x y) as [->|Hxy].
      * rewrite IH. split; intros [c H]; exists c; congruence.
      * split; [discriminate | intros [c H]; congruence].
Qed.

(** [s.endswith(suffix)] holds exactly when [s] is some text followed by
    [suffix]. *)
Lemma endswith_spec (s suffix : string) :
  endswith s suffix = true <-> exists p, s = p ++ suffix.
Proof.
  unfold endswith. rewrite prefix_spec. split.
  - intros [c H]. exists (rev c).
    rewrite <- (rev_involutive s), H, rev_app, rev_involutive. reflexivity.
  - intros [p ->]. exists (rev p). apply rev_app.
Qed.

Lemma append_length (a b : string) :
  String.length (a ++ b) = (String.length a + String.length b)%nat.
Proof. induction a as [|c a IH]; cbn; [|rewrite IH]; reflexivity. Qed.

Lemma append_same_length (p q a b : string) :
  String.length p = String.length q -> p ++ a = q ++ b -> a = b.
Proof.
  revert q. induction p as [|c p IH]; intros [|d q] Hl H;
    try discriminate; cbn in *.
  - exact H.
  - injection H as _ H. injection Hl as Hl. eauto.
Qed.

(** A text does not end with two different suffixes of one length. *)
Lemma endswith_exclusive (s a b : string) :
  String.length a = String.length b -> a <> b ->
  endswith s a = true -> endswith s b = false.
Proof.
  intros Hl Hab Ha.
  destruct (endswith s b) eqn:Hb; [|reflexivity].
  apply endswith_spec in Ha as [p Hp]. apply endswith_spec in Hb as [q Hq].
  exfalso. apply Hab.
  apply (append_same_length p q).
  - assert (H : String.length (p ++ a) = String.length (q ++ b))
      by congruence.
    rewrite !append_length in H. lia.
  - congruence.
Qed.

Lemma substring_0_app (s t : string) :
  String.substring 0 (String.length s) (s ++ t) = s.
Proof.
  induction s as [|c s IH]; cbn.
  - destruct t; reflexivity.
  - rewrite IH. reflexivity.
Qed.

(** [(s + c1 + c2)[:-2]] is [s]. *)
Lemma drop_last2_app (s : string) (c1 c2 : ascii) :
  drop_last2 (s ++ String c1 (String c2 EmptyString)) = s.
Proof.
  unfold drop_last2. rewrite append_length. cbn [String.length].
  replace (String.length s + 2 - 2)%nat with (String.length s) by lia.
  apply substring_0_app.
Qed.

Lemma lstrip_app_space (w s : string) :
  Scanner.all_space w = true -> lstrip (w ++ s) = lstrip s.
Proof.
  induction w as [|c w IH]; [reflexivity|].
  cbn. intros H. apply andb_prop in H as [Hc Hw]. rewrite Hc. auto.
Qed.

Lemma lstrip_all_space (w : string) :
  Scanner.all_space w = true -> lstrip w = EmptyString.
Proof.
  induction w as [|c w IH]; [reflexivity|].
  cbn. intros H. apply andb_prop in H as [Hc Hw]. rewrite Hc. auto.
Qed.

Lemma lstrip_no_space (s t : string) :
  Scanner.no_space s = true -> s <> EmptyString -> lstrip (s ++ t) = s ++ t.
Proof.
  destruct s as [|c s]; [congruence|].
  cbn. intros H _. apply andb_prop in H as [Hc _].
  destruct (is_space c); [discriminate | reflexivity].
Qed.

Lemma all_space_app (a b : string) :
  Scanner.all_space (a ++ b) = Scanner.all_space a && Scanner.all_space b.
Proof.
  induction a as [|c a IH]; [reflexivity|].
  cbn. rewrite IH, andb_assoc. reflexivity.
Qed.

Lemma no_space_app (a b : string) :
  Scanner.no_space (a ++ b) = Scanner.no_space a && Scanner.no_space b.
Proof.
  induction a as [|c a IH]; [reflexivity|].
  cbn. rewrite IH, andb_assoc. reflexivity.
Qed.

Lemma all_space_rev (w : string) :
  Scanner.all_space (rev w) = Scanner.all_space w.
Proof.
  induction w as [|c w IH]; [reflexivity|].
  rewrite rev_cons, all_space_app, IH. cbn.
  rewrite andb_true_r, andb_comm. reflexivity.
Qed.

Lemma no_space_rev (s : string) :
  Scanner.no_space (rev s) = Scanner.no_space s.
Proof.
  induction s as [|c s IH]; [reflexivity|].
  rewrite rev_cons, no_space_app, IH. cbn.
  rewrite andb_true_r, andb_comm. reflexivity.
Qed.

(** Stripping takes the whitespace around a text without whitespace. *)
Lemma strip_around (w1 s w2 : string) :
  Scanner.all_space w1 = true -> Scanner.all_space w2 = true ->
  Scanner.no_space s = true ->
  strip (w1 ++ s ++ w2) = s.
Proof.
  intros H1 H2 Hs. unfold strip, rstrip.
  rewrite lstrip_app_space by assumption.
  destruct (String.string_dec s EmptyString) as [->|Hne].
  - cbn [append]. rewrite (lstrip_all_space w2) by assumption. reflexivity.
  - rewrite (lstrip_no_space s w2) by assumption.
    rewrite rev_app, (lstrip_app_space (rev w2))
      by (rewrite all_space_rev; assumption).
    rewrite <- (append_nil_r (rev s)).
    rewrite (lstrip_no_space (rev s)).
    + rewrite append_nil_r. apply rev_involutive.
    + rewrite no_space_rev. assumption.
    + intros H. apply Hne. rewrite <- (rev_involutive s), H. reflexivity.
Qed.

Lemma int_digits_uint (d : Decimal.uint) (a : nat) :
  int_digits (DecimalString.NilEmpty.string_of_uint d) (Z.of_nat a) true
  = Some (Z.of_nat (Nat.of_uint_acc d a)).
Proof.
  revert a. induction d; intros a; cbn [DecimalString.NilEmpty.string_of_uint];
    [reflexivity | ..];
    cbn [int_digits Nat.of_uint_acc];
    match goal with
    | |- context [digit_val ?c] =>
        let v := eval vm_compute in (digit_val c) in
        change (digit_val c) with v
    end;
    cbv iota beta;
    match goal with
    | |- int_digits _ ?z true = Some (Z.of_nat (Nat.of_uint_acc _ ?m)) =>
        replace z with (Z.of_nat m)
          by (rewrite Nat.tail_mul_spec; lia)
    end;
    apply IHd.
Qed.

Lemma no_space_uint (d : Decimal.uint) :
  Scanner.no_space (DecimalString.NilEmpty.string_of_uint d) = true.
Proof. induction d; cbn; auto. Qed.

(** [int] reads the decimal numeral of a natural number back, whatever
    whitespace surrounds it. *)
Lemma int_decimal (n : nat) (w1 w2 : string) :
  Scanner.all_space w1 = true -> Scanner.all_space w2 = true ->
  int (w1 ++ decimal n ++ w2) = Some (Z.of_nat n).
Proof.
  intros H1 H2. unfold int, decimal.
  assert (Hns : Scanner.no_space
                  (DecimalString.NilZero.string_of_uint (Nat.to_uint n))
                = true).
  { unfold DecimalString.NilZero.string_of_uint.
    destruct (Nat.to_uint n); try apply no_space_uint; reflexivity. }
  rewrite strip_around by assumption.
  rewrite <- (DecimalNat.Unsigned.of_to n) at 2.
  unfold DecimalString.NilZero.string_of_uint, Nat.of_uint.
  destruct (Nat.to_uint n) as [|d|d|d|d|d|d|d|d|d|d];
    try reflexivity;
    cbn [DecimalString.NilEmpty.string_of_uint];
    (cbn [int_digits];
     match goal with
     | |- context [digit_val ?c] =>
         let v := eval vm_compute in (digit_val c) in
         change (digit_val c) with v
     end;
     cbv iota beta;
     cbn [Nat.of_uint_acc];
     match goal with
     | |- int_digits _ ?z true = Some (Z.of_nat (Nat.of_uint_acc _ ?m)) =>
         replace z with (Z.of_nat m)
           by (rewrite Nat.tail_mul_spec; lia)
     end;
     apply int_digits_uint).
Qed.

Lemma int_decimal_bare (n : nat) : int (decimal n) = Some (Z.of_nat n).
Proof.
  pose proof (int_decimal n EmptyString EmptyString eq_refl eq_refl) as H.
  cbn [append] in H. rewrite append_nil_r in H. exact H.
Qed.

End StringFacts.

(** ** The handler, branch by branch *)

Section HandlerFacts.

Context {D : Domain} {C : Collaborators D}.

Lemma post_do_hook_cases (k : Kernel D) :
  post_do_hook k =
  if hook_raises k then
    (Raised "ValueError", set_world (snd (probe_trip k)) k, hook_prefix k)
  else
    (Returned tt, hook_kernel k (hook_linesize k),
     (hook_prefix k ++ [EvRefresh])%list).
Proof.
  rewrite post_do_hook_run. unfold hook_raises, hook_linesize.
  destruct (probe_rc k =? 0); [destruct (PyStr.int _)|]; reflexivity.
Qed.

Lemma do_execute_cases (code : string) (silent : bool) (k : Kernel D) :
  do_execute code silent k =
  if negb (cm_is_complete (CodeManager_new code (Some (sc_delimit_mode k))))
  then
    (Returned (PDict [("status", PStr "error");
                      ("execution_count", PInt (execution_count k))]),
     k, [EvCodeManager code (Some (sc_delimit_mode k)); hint_event])
  else if truthy (quit_early code k) then
    (Returned (quit_early code k), after_magic code k,
     [EvCodeManager code (Some (sc_delimit_mode k)); EvMagic code])
  else if hook_raises (before_hook code k) then
    (Raised "ValueError",
     set_world (snd (probe_trip (before_hook code k))) (before_hook code k),
     (run_prefix code k ++ hook_prefix (before_hook code k))%list)
  else
    (Returned (return_obj (execution_count k) (session_rc code k)),
     set_sc_delimit_mode (cm_ends_sc (splitter code k))
       (hook_kernel (before_hook code k) (hook_linesize (before_hook code k))),
     (run_prefix code k
      ++ (hook_prefix (before_hook code k) ++ [EvRefresh])
      ++ notice_events code silent k)%list).
Proof.
  rewrite do_execute_run, post_do_hook_cases.
  destruct (negb _); [reflexivity|].
  destruct (truthy _); [reflexivity|].
  destruct (hook_raises _); reflexivity.
Qed.

Lemma no_notice_filter (l : list (Event D)) :
  count is_notice l = 0%nat ->
  filter (fun e => negb (is_notice e)) l = l.
Proof.
  unfold count. induction l as [|e l IH]; [reflexivity|].
  cbn [filter]. destruct (is_notice e); cbn [negb List.length].
  - discriminate.
  - intros H. rewrite IH by assumption. reflexivity.
Qed.

Lemma hint_is_no_notice : is_notice (D := D) hint_event = false.
Proof. reflexivity. Qed.

Lemma in_count_zero (p : Event D -> bool) (e : Event D) (l : list (Event D)) :
  count p l = 0%nat -> p e = true -> ~ In e l.
Proof.
  unfold count. intros Hc He Hin.
  assert (H : In e (filter p l)) by (apply filter_In; auto).
  destruct (filter p l); [exact H | discriminate].
Qed.

End HandlerFacts.

(** ** More about [do_execute] and [post_do_hook] *)

Section HandlerProps.

Context {D : Domain} {C : Collaborators D}.

Lemma count_prefixes (p : Event D -> bool) (code : string) (k : Kernel D) :
  p (EvCodeManager code (Some (sc_delimit_mode k))) = false ->
  (forall c sc, p (EvCodeManager c sc) = false) ->
  (forall c, p (EvMagic c) = false) ->
  (forall cm, p (EvGetText cm) = false) ->
  (forall t m e d, p (EvDo t m e d) = false) ->
  p EvMagicsPost = false ->
  count p (run_prefix code k) = 0%nat
  /\ count p (hook_prefix (before_hook code k)) = 0%nat.
Proof.
  intros _ Hcm Hm Hg Hd Hp.
  unfold run_prefix, hook_prefix, count.
  destruct (user_event_is_do code k) as (t & m & e & ->).
  destruct (probe_event_is_do (before_hook code k))
    as (t' & m' & e' & _ & ->).
  cbn [filter]. rewrite !Hcm, Hm, !Hg, !Hd, Hp. split; reflexivity.
Qed.

(** [silent] decides about the delimiter notice and about nothing else:
    the silent call has the outcome and the kernel of the other, and its
    events are the other's without the notice. *)
Theorem silent_only_hides_notice (code : string) (k : Kernel D) :
  outcome_of (do_execute code true k) = outcome_of (do_execute code false k)
  /\ kernel_of (do_execute code true k) = kernel_of (do_execute code false k)
  /\ events_of (do_execute code true k)
     = filter (fun e => negb (is_notice e))
         (events_of (do_execute code false k)).
Proof.
  rewrite !do_execute_cases.
  destruct (negb _); [repeat split|].
  destruct (truthy _); [repeat split|].
  destruct (count_run_prefix code k) as [Hr _].
  destruct (count_hook_prefix (before_hook code k)) as [Hh _].
  destruct (hook_raises _); unfold outcome_of, kernel_of, events_of;
    cbn [fst snd]; repeat split.
  - rewrite filter_app, !no_notice_filter by assumption. reflexivity.
  - rewrite !filter_app, !no_notice_filter by assumption.
    unfold notice_events. cbn [negb andb app filter].
    destruct (negb (Bool.eqb _ _)); cbn [filter andb].
    + rewrite delimiter_notice_is_notice. reflexivity.
    + reflexivity.
Qed.

(** [do_execute] raises in one case only: the block passed the gate, the
    magics left it to the session, the probe of the hook passed and its
    output is no integer; the exception is [ValueError]. *)
Theorem do_execute_raises_iff (code : string) (silent : bool) (k : Kernel D)
  (e : string) :
  outcome_of (do_execute code silent k) = Raised e <->
  e = "ValueError"
  /\ outcome_of (is_complete code k) = Returned true
  /\ truthy (quit_early code k) = false
  /\ probe_rc (before_hook code k) = 0
  /\ PyStr.int (PyStr.strip (probe_res (before_hook code k))) = None.
Proof.
  rewrite do_execute_cases, is_complete_outcome.
  unfold hook_raises, outcome_of.
  destruct (cm_is_complete _); cbn [negb fst].
  2: { split; [discriminate | intros (_ & H & _); discriminate]. }
  destruct (truthy _); cbn [fst].
  { split; [discriminate | intros (_ & _ & H & _); discriminate]. }
  destruct (probe_rc _ =? 0) eqn:Hrc; cbn [andb].
  - apply Z.eqb_eq in Hrc.
    destruct (PyStr.int _); cbn [fst].
    + split; [discriminate | intros (_ & _ & _ & _ & H); discriminate].
    + split; [intros H; injection H as <-; auto | intros (-> & _); auto].
  - apply Z.eqb_neq in Hrc. cbn [fst].
    split; [discriminate | intros (_ & _ & _ & H & _); contradiction].
Qed.

(** A call that raises has run the user's block all the same: both calls
    of [do] were made, the user's among them, but completions were not
    refreshed, no notice was sent, and delimiter mode and line size are
    what they were. *)
Theorem raised_run_is_half_done (code : string) (silent : bool)
  (k : Kernel D) (e : string) :
  outcome_of (do_execute code silent k) = Raised e ->
  count is_do (events_of (do_execute code silent k)) = 2%nat
  /\ In (user_event code k) (events_of (do_execute code silent k))
  /\ count is_refresh (events_of (do_execute code silent k)) = 0%nat
  /\ count is_notice (events_of (do_execute code silent k)) = 0%nat
  /\ sc_delimit_mode (kernel_of (do_execute code silent k))
     = sc_delimit_mode k
  /\ linesize (kernel_of (do_execute code silent k)) = linesize k.
Proof.
  rewrite do_execute_cases. unfold outcome_of, kernel_of, events_of.
  destruct (negb _); [discriminate|].
  destruct (truthy _); [discriminate|].
  destruct (hook_raises _); [intros _ | discriminate].
  cbn [fst snd].
  destruct (count_run_prefix code k) as [Hrn Hrd].
  destruct (count_hook_prefix (before_hook code k)) as [Hhn Hhd].
  destruct (count_prefixes is_refresh code k) as [Hrr Hhr];
    try reflexivity.
  rewrite !count_app, Hrn, Hrd, Hhn, Hhd, Hrr, Hhr.
  split; [reflexivity|]. split; [|repeat split].
  apply in_or_app. left. unfold run_prefix. cbn [In]. auto 10.
Qed.

(** The delimiter mode after a call, whatever the call: [cm.ends_sc] of
    the splitter when the block ran and the call returned, the mode before
    the call otherwise; and this is the mode the next completeness check
    builds its [CodeManager] with. *)
Theorem mode_carried_to_next_call (code : string) (silent : bool)
  (k : Kernel D) (next : string) :
  let mode :=
    if runs code k && negb (hook_raises (before_hook code k))
    then cm_ends_sc (splitter code k)
    else sc_delimit_mode k in
  sc_delimit_mode (kernel_of (do_execute code silent k)) = mode
  /\ events_of (is_complete next (kernel_of (do_execute code silent k)))
     = [EvCodeManager next (Some mode)].
Proof.
  cbv zeta. rewrite is_complete_run. unfold events_of at 1; cbn [snd].
  assert (H : sc_delimit_mode (kernel_of (do_execute code silent k))
              = if runs code k && negb (hook_raises (before_hook code k))
                then cm_ends_sc (splitter code k)
                else sc_delimit_mode k).
  { rewrite do_execute_cases. unfold runs, kernel_of.
    destruct (cm_is_complete _); cbn [negb andb fst snd]; [|reflexivity].
    destruct (truthy _); cbn [negb andb fst snd]; [reflexivity|].
    destruct (hook_raises _); reflexivity. }
  rewrite H. split; reflexivity.
Qed.

(** The completeness RPC and the gate of [do_execute] agree: the RPC
    answers [complete] exactly when [do_execute] on the same block and
    kernel sends nothing on stderr, the hint for incomplete input
    included. *)
Theorem gate_agrees_with_rpc (code : string) (silent : bool) (k : Kernel D) :
  (outcome_of (do_is_complete code k)
   = Returned (PDict [("status", PStr "complete")])
   <-> count is_stderr (events_of (do_execute code silent k)) = 0%nat)
  /\ (outcome_of (do_is_complete code k)
      = Returned (PDict [("status", PStr "incomplete");
                         ("indent", PStr "    ")])
      <-> In hint_event (events_of (do_execute code silent k))).
Proof.
  unfold do_is_complete, bind. rewrite is_complete_run, do_execute_cases.
  unfold outcome_of, events_of.
  destruct (cm_is_complete _); cbn [negb fst snd ret].
  2: { split; split; try discriminate; try reflexivity.
       intros _. right. left. reflexivity. }
  destruct (count_prefixes is_stderr code k) as [Hr Hh]; try reflexivity.
  assert (Hn : count is_stderr (notice_events code silent k) = 0%nat).
  { unfold notice_events. destruct (negb silent && _); [|reflexivity].
    destruct (cm_ends_sc _); reflexivity. }
  assert (Hall : count is_stderr
            (snd (if truthy (quit_early code k) then
              (Returned (quit_early code k), after_magic code k,
               [EvCodeManager code (Some (sc_delimit_mode k)); EvMagic code])
             else if hook_raises (before_hook code k) then
              (Raised "ValueError",
               set_world (snd (probe_trip (before_hook code k)))
                 (before_hook code k),
               (run_prefix code k ++ hook_prefix (before_hook code k))%list)
             else
              (Returned (return_obj (execution_count k) (session_rc code k)),
               set_sc_delimit_mode (cm_ends_sc (splitter code k))
                 (hook_kernel (before_hook code k)
                    (hook_linesize (before_hook code k))),
               (run_prefix code k
                ++ (hook_prefix (before_hook code k) ++ [EvRefresh])
                ++ notice_events code silent k)%list))) = 0%nat).
  { destruct (truthy _); [reflexivity|].
    destruct (hook_raises _); cbn [snd]; rewrite !count_app, ?Hr, ?Hh, ?Hn;
      reflexivity. }
  split; split; try discriminate; auto.
  intros Hin. exfalso.
  exact (in_count_zero is_stderr hint_event _ Hall eq_refl Hin).
Qed.

(** In a call that runs the block and returns, the events come in this
    order: completeness check, magics, splitter, [get_text], the user's
    round trip, the magics' [post], the probe, the refresh of completions
    and, last of all, the delimiter notice if there is one. *)
Theorem returned_run_trace (code : string) (silent : bool) (k : Kernel D)
  (r : PyVal) :
  outcome_of (is_complete code k) = Returned true ->
  truthy (quit_early code k) = false ->
  outcome_of (do_execute code silent k) = Returned r ->
  events_of (do_execute code silent k)
  = ([EvCodeManager code (Some (sc_delimit_mode k)); EvMagic code;
      EvCodeManager (magic_code code k) (Some (sc_delimit_mode k));
      EvGetText (splitter code k); user_event code k; EvMagicsPost;
      EvCodeManager probe_code None; EvGetText probe;
      probe_event (before_hook code k); EvRefresh]
     ++ notice_events code silent k)%list.
Proof.
  intros Hc Hq. apply is_complete_outcome in Hc.
  rewrite do_execute_cases, Hc, Hq. cbn [negb].
  unfold outcome_of, events_of.
  destruct (hook_raises _); cbn [fst snd]; [discriminate|].
  intros _. reflexivity.
Qed.

(** [post_do_hook] returns unless the probe passed with output that is no
    integer; then it raises [ValueError] with the line size untouched.
    Completions are refreshed exactly when it returns. *)
Theorem post_do_hook_refreshes_iff_returns (k : Kernel D) :
  (outcome_of (post_do_hook k) = Returned tt
   <-> ~ (probe_rc k = 0
          /\ PyStr.int (PyStr.strip (probe_res k)) = None))
  /\ (outcome_of (post_do_hook k) = Raised "ValueError"
      <-> probe_rc k = 0
          /\ PyStr.int (PyStr.strip (probe_res k)) = None)
  /\ count is_refresh (events_of (post_do_hook k))
     = (match outcome_of (post_do_hook k) with
        | Returned _ => 1
        | Raised _ => 0
        end)%nat
  /\ (forall e, outcome_of (post_do_hook k) = Raised e ->
                linesize (kernel_of (post_do_hook k)) = linesize k).
Proof.
  rewrite post_do_hook_run.
  destruct (probe_event_is_do k) as (t & m & e & _ & He).
  unfold outcome_of, kernel_of, events_of, hook_prefix.
  rewrite He.
  destruct (probe_rc k =? 0) eqn:Hrc;
    [apply Z.eqb_eq in Hrc; destruct (PyStr.int _)
    | apply Z.eqb_neq in Hrc];
    cbn [fst snd];
    (split; [|split; [|split]];
     [ | | reflexivity | intros ex Hex; first [discriminate | reflexivity]]);
    intuition (try discriminate; try congruence).
Qed.

(** The hook reads back what Stata prints: when the probe passes and its
    output is the decimal numeral of [n] with whitespace around it, the
    hook returns and the stored line size is [n]. *)
Theorem post_do_hook_reads_decimal (k : Kernel D) (n : nat)
  (w1 w2 : string) :
  probe_rc k = 0 ->
  probe_res k = w1 ++ decimal n ++ w2 ->
  Scanner.all_space w1 = true -> Scanner.all_space w2 = true ->
  outcome_of (post_do_hook k) = Returned tt
  /\ linesize (kernel_of (post_do_hook k)) = Z.of_nat n.
Proof.
  intros Hrc Hres H1 H2.
  assert (Hint : PyStr.int (PyStr.strip (probe_res k)) = Some (Z.of_nat n)).
  { rewrite Hres, strip_around; try assumption.
    - apply int_decimal_bare.
    - unfold decimal, DecimalString.NilZero.string_of_uint.
      destruct (Nat.to_uint n); try apply no_space_uint; reflexivity. }
  rewrite post_do_hook_run, Hrc, Hint. split; reflexivity.
Qed.

End HandlerProps.

(** ** [send_image] *)

Section SendImageFacts.

Context {D : Domain} {C : Collaborators D}.

(** The three suffixes exclude one another. *)
Lemma suffix_svg (p : string) :
  PyStr.endswith (p ++ ".svg") ".svg" = true.
Proof. apply endswith_spec. eauto. Qed.

Lemma suffix_pdf (p : string) :
  PyStr.endswith (p ++ ".pdf") ".svg" = false
  /\ PyStr.endswith (p ++ ".pdf") ".png" = false
  /\ PyStr.endswith (p ++ ".pdf") ".pdf" = true.
Proof.
  assert (H : PyStr.endswith (p ++ ".pdf") ".pdf" = true)
    by (apply endswith_spec; eauto).
  repeat split; try exact H;
    apply (endswith_exclusive _ ".pdf"); auto; discriminate.
Qed.

Lemma suffix_png (p : string) :
  PyStr.endswith (p ++ ".png") ".svg" = false
  /\ PyStr.endswith (p ++ ".png") ".png" = true.
Proof.
  assert (H : PyStr.endswith (p ++ ".png") ".png" = true)
    by (apply endswith_spec; eauto).
  split; [|exact H].
  apply (endswith_exclusive _ ".png"); auto; discriminate.
Qed.

(** The run of [send_image], by suffix and by what the library calls
    give. *)
Ltac image_cases graph_path k :=
  unfold send_image;
  destruct (PyStr.endswith graph_path ".svg");
    [|destruct (PyStr.endswith graph_path ".png");
      [|destruct (PyStr.endswith graph_path ".pdf")]];
  cbn [orb];
  unfold bind, gets, or_raise, send_response, emit, ret, raise,
    outcome_of, kernel_of, events_of;
  [ destruct (read_text _ _) as [img|]; cbn [snd fst];
    [destruct (ET_root_attrib img) as [a|]; cbn [snd fst];
     [destruct (attrib_get a "width") as [ws|]; cbn [snd fst];
      [destruct (PyStr.int (PyStr.drop_last2 ws)) as [wd|]; cbn [snd fst];
       [destruct (attrib_get a "height") as [hs|]; cbn [snd fst];
        [destruct (PyStr.int (PyStr.drop_last2 hs)) as [ht|];
         cbn [snd fst]|]|]|]|]|]
  | destruct (Image_open_size _ _) as [[wd ht]|]; cbn [snd fst];
    [destruct (read_bytes _ _) as [raw|]; cbn [snd fst]|]
  | destruct (read_bytes _ _) as [raw|]; cbn [snd fst]
  | ].

Lemma send_image_all_or_nothing_kernel (graph_path : string) (k : Kernel D) :
  kernel_of (send_image graph_path k) = k.
Proof. image_cases graph_path k; reflexivity. Qed.

(** [send_image] sends all or nothing and keeps the kernel: the kernel is
    the same after every call; a call that raises has sent nothing; a call
    that returns has sent one message when the path ends in one of the
    three suffixes and none otherwise. *)
Theorem send_image_all_or_nothing (graph_path : string) (k : Kernel D) :
  kernel_of (send_image graph_path k) = k
  /\ (forall e, outcome_of (send_image graph_path k) = Raised e ->
                events_of (send_image graph_path k) = [])
  /\ (outcome_of (send_image graph_path k) = Returned tt ->
      List.length (events_of (send_image graph_path k))
      = if PyStr.endswith graph_path ".svg"
           || PyStr.endswith graph_path ".png"
           || PyStr.endswith graph_path ".pdf"
        then 1%nat else 0%nat).
Proof.
  image_cases graph_path k;
    (split; [reflexivity|]); split; intros;
    first [discriminate | reflexivity].
Qed.

(** A readable file whose path ends in [.pdf] is sent as one
    [display_data] message that carries the base64 text of the file under
    [application/pdf], with empty metadata. *)
Theorem send_image_pdf (p raw : string) (k : Kernel D) :
  read_bytes (world k) (p ++ ".pdf") = Some raw ->
  send_image (p ++ ".pdf") k
  = (Returned tt, k,
     [EvSend "display_data"
        (PDict [("data", PDict [("text/plain", PStr no_display_msg);
                                ("application/pdf", PStr (b64encode raw))]);
                ("metadata", PDict [])])]).
Proof.
  intros Hr. unfold send_image.
  destruct (suffix_pdf p) as (-> & -> & ->).
  unfold bind, gets, or_raise, send_response, emit, ret.
  rewrite Hr. reflexivity.
Qed.

(** The size of an SVG is read from the [width] and [height] attributes of
    its root with the last two characters dropped, whatever they are: for
    attributes that are decimal numerals followed by two characters, the
    message carries those numbers. *)
Theorem send_image_svg_size (p img : string) (k : Kernel D)
  (attrib : list (string * string)) (w h : nat) (u1 u2 v1 v2 : ascii) :
  read_text (world k) (p ++ ".svg") = Some img ->
  ET_root_attrib img = Some attrib ->
  attrib_get attrib "width"
  = Some (decimal w ++ String u1 (String u2 EmptyString)) ->
  attrib_get attrib "height"
  = Some (decimal h ++ String v1 (String v2 EmptyString)) ->
  send_image (p ++ ".svg") k
  = (Returned tt, k,
     [EvSend "display_data"
        (PDict [("data", PDict [("text/plain", PStr no_display_msg);
                                ("image/svg+xml", PStr img)]);
                ("metadata",
                 PDict [("image/svg+xml",
                         PDict [("width", PInt (Z.of_nat w));
                                ("height", PInt (Z.of_nat h))])])])]).
Proof.
  intros Hr Ha Hw Hh. unfold send_image.
  rewrite suffix_svg.
  unfold bind, gets, or_raise, send_response, emit, ret.
  rewrite Hr, Ha, Hw, Hh, !drop_last2_app, !int_decimal_bare.
  reflexivity.
Qed.

(** A PNG is sent with the size [PIL] reports, halved (as floats) when the
    platform is Darwin and unchanged elsewhere, and with the base64 text of
    the file. *)
Theorem send_image_png_size (p raw : string) (k : Kernel D) (w h : Z) :
  Image_open_size (world k) (p ++ ".png") = Some (w, h) ->
  read_bytes (world k) (p ++ ".png") = Some raw ->
  send_image (p ++ ".png") k
  = (Returned tt, k,
     [EvSend "display_data"
        (PDict [("data", PDict [("text/plain", PStr no_display_msg);
                                ("image/png", PStr (b64encode raw))]);
                ("metadata",
                 PDict [("image/png",
                         PDict [("width",
                                 if String.eqb platform_system "Darwin"
                                 then PFloatHalf w else PInt w);
                                ("height",
                                 if String.eqb platform_system "Darwin"
                                 then PFloatHalf h else PInt h)])])])]).
Proof.
  intros Hs Hr. unfold send_image.
  destruct (suffix_png p) as (-> & ->).
  unfold bind, gets, or_raise, send_response, emit, ret.
  rewrite Hs, Hr. reflexivity.
Qed.

(** An SVG whose [width] attribute has two characters or fewer has nothing
    left once the last two are dropped: [send_image] raises [ValueError]
    and sends nothing. *)
Theorem send_image_svg_short_width (p img ws : string) (k : Kernel D)
  (attrib : list (string * string)) :
  read_text (world k) (p ++ ".svg") = Some img ->
  ET_root_attrib img = Some attrib ->
  attrib_get attrib "width" = Some ws ->
  (String.length ws <= 2)%nat ->
  send_image (p ++ ".svg") k = (Raised "ValueError", k, []).
Proof.
  intros Hr Ha Hw Hlen. unfold send_image. rewrite suffix_svg.
  unfold bind, gets, or_raise, send_response, emit, ret, raise.
  rewrite Hr, Ha, Hw.
  assert (Hd : PyStr.drop_last2 ws = EmptyString).
  { unfold PyStr.drop_last2.
    replace (String.length ws - 2)%nat with 0%nat by lia.
    destruct ws; reflexivity. }
  rewrite Hd. reflexivity.
Qed.

End SendImageFacts.

(** ** [do_complete], [do_shutdown] and the frame of the methods *)

Section OtherMethodFacts.

Context {D : Domain} {C : Collaborators D} {P : Completions D}.

Lemma substring_split (s : string) :
  forall a n,
    String.substring 0 a s ++ String.substring a n s
    = String.substring 0 (a + n) s.
Proof.
  induction s as [|c s IH]; intros [|a] n;
    try (destruct n; reflexivity).
  cbn. rewrite IH. reflexivity.
Qed.

Lemma substring_length_le (s : string) :
  forall a n, (String.length (String.substring a n s) <= n)%nat.
Proof.
  induction s as [|c s IH]; intros [|a] [|n]; cbn; try lia.
  - specialize (IH 0%nat n). lia.
  - apply (IH a 0%nat).
  - apply (IH a (S n)).
Qed.

Lemma substring_0_length (s : string) :
  forall a, String.length (String.substring 0 a s)
            = Nat.min a (String.length s).
Proof.
  induction s as [|c s IH]; intros [|a]; cbn; try reflexivity.
  rewrite IH. reflexivity.
Qed.

Lemma substring_0_all (s : string) :
  String.substring 0 (String.length s) s = s.
Proof.
  induction s as [|c s IH]; [reflexivity | cbn; rewrite IH; reflexivity].
Qed.

(** For a cursor at or after the start, [do_complete] hands the completions
    two adjacent pieces of the code: the text before the cursor and at
    most two characters from the cursor on; together they are the code up
    to two characters past the cursor, and the rest of the code follows
    them. *)
Theorem cursor_window (code : string) (cursor_pos : Z) :
  0 <= cursor_pos ->
  before_cursor code cursor_pos ++ after_cursor code cursor_pos
  = PySlice.slice code 0 (cursor_pos + 2)
  /\ (String.length (after_cursor code cursor_pos) <= 2)%nat
  /\ (cursor_pos <= Z.of_nat (String.length code) ->
      Z.of_nat (String.length (before_cursor code cursor_pos)) = cursor_pos)
  /\ exists rest,
       code = before_cursor code cursor_pos
              ++ after_cursor code cursor_pos ++ rest.
Proof.
  intros Hpos.
  unfold before_cursor, after_cursor, PySlice.slice, PySlice.clamp.
  set (len := Z.of_nat (String.length code)).
  assert (Hlen : 0 <= len) by (unfold len; lia).
  replace (0 <? 0) with false by reflexivity.
  replace (cursor_pos <? 0) with false by (symmetry; apply Z.ltb_ge; lia).
  replace (cursor_pos + 2 <? 0) with false
    by (symmetry; apply Z.ltb_ge; lia).
  replace (Z.min 0 len) with 0 by lia.
  rewrite !Z.sub_0_r. cbn [Z.to_nat].
  set (a := Z.min cursor_pos len). set (b := Z.min (cursor_pos + 2) len).
  assert (Hab : Z.to_nat b = (Z.to_nat a + Z.to_nat (b - a))%nat)
    by (unfold a, b; lia).
  split; [|split; [|split]].
  - rewrite substring_split, <- Hab. reflexivity.
  - etransitivity; [apply substring_length_le|]. unfold a, b. lia.
  - intros Hle. rewrite substring_0_length. unfold a, len in *. lia.
  - exists (String.substring (Z.to_nat b) (String.length code - Z.to_nat b)
              code).
    rewrite <- str_app_assoc, substring_split, <- Hab, substring_split.
    replace (Z.to_nat b + (String.length code - Z.to_nat b))%nat
      with (String.length code) by (unfold b, len; lia).
    symmetry. apply substring_0_all.
Qed.

(** Only [do_execute] assigns the delimiter mode: the completeness check,
    the completeness RPC, the hook, the image sender, the completion
    handler and the shutdown handler all leave it as it is.  No method
    assigns the execution count. *)
Theorem delimiter_mode_frame (code : string) (silent : bool) (n : Z)
  (v : PyVal) (k : Kernel D) :
  sc_delimit_mode (kernel_of (is_complete code k)) = sc_delimit_mode k
  /\ sc_delimit_mode (kernel_of (do_is_complete code k)) = sc_delimit_mode k
  /\ sc_delimit_mode (kernel_of (post_do_hook k)) = sc_delimit_mode k
  /\ sc_delimit_mode (kernel_of (send_image code k)) = sc_delimit_mode k
  /\ sc_delimit_mode (kernel_of (do_complete code n k)) = sc_delimit_mode k
  /\ sc_delimit_mode (kernel_of (do_shutdown v k)) = sc_delimit_mode k
  /\ execution_count (kernel_of (do_execute code silent k))
     = execution_count k
  /\ execution_count (kernel_of (post_do_hook k)) = execution_count k
  /\ execution_count (kernel_of (do_complete code n k)) = execution_count k
  /\ execution_count (kernel_of (do_shutdown v k)) = execution_count k.
Proof.
  assert (Hdc : sc_delimit_mode (kernel_of (do_complete code n k))
                = sc_delimit_mode k
                /\ execution_count (kernel_of (do_complete code n k))
                   = execution_count k).
  { unfold do_complete, kernel_of.
    destruct (completions_get_env _ _ _ _) as [[[[env pos] chunk] rc] w1].
    destruct (completions_get _ _ _ _) as [ms w2]. split; reflexivity. }
  destruct Hdc as [Hdc1 Hdc2].
  destruct (post_do_hook_frame k) as [Hh1 Hh2].
  assert (Hsi : kernel_of (send_image code k) = k).
  { pose proof (send_image_all_or_nothing_kernel code k) as H. exact H. }
  assert (Hex : execution_count (kernel_of (do_execute code silent k))
                = execution_count k).
  { rewrite do_execute_cases. unfold kernel_of.
    destruct (negb _); [reflexivity|].
    destruct (truthy _); [reflexivity|].
    destruct (hook_raises _); reflexivity. }
  rewrite Hsi.
  unfold do_is_complete, bind. rewrite !is_complete_run.
  destruct (cm_is_complete _); repeat split; assumption.
Qed.

End OtherMethodFacts.

(** ** The copy of the syntax-highlighting files *)

Section BootstrapFacts.

Import Bootstrap.

Context {FS : Type} {F : FileSystem FS}.

Lemma copy_files_returns (pairs : list (string * string)) :
  (forall fs p, is_file fs p = true -> stat_dt fs p <> None) ->
  (forall fs src dst, In (src, dst) pairs -> stat_dt fs src <> None) ->
  forall fs, fst (fst (copy_files fs pairs)) = Returned tt.
Proof.
  intros Hfile. induction pairs as [|[src dst] rest IH]; intros Hsrc fs.
  - reflexivity.
  - assert (IH' : forall fs', fst (fst (copy_files fs' rest)) = Returned tt).
    { apply IH. intros fs' s d Hin. apply (Hsrc fs' s d). right. exact Hin. }
    cbn [copy_files]. unfold needs_copy.
    destruct (is_file fs dst) eqn:Hf.
    + pose proof (Hfile fs dst Hf) as Hd.
      pose proof (Hsrc fs src dst (or_introl eq_refl)) as Hs.
      destruct (stat_dt fs dst); [|congruence].
      destruct (stat_dt fs src); [|congruence].
      destruct (_ <? _).
      * destruct (try_copy fs src dst) as [fs1 ev].
        specialize (IH' fs1).
        destruct (copy_files fs1 rest) as [[o fs2] ev']. exact IH'.
      * apply IH'.
    + destruct (try_copy fs src dst) as [fs1 ev].
      specialize (IH' fs1).
      destruct (copy_files fs1 rest) as [[o fs2] ev']. exact IH'.
Qed.

(** A failure of [mkdir] or of the copy never stops the constructor: when
    [stat] succeeds on the package's own two files and on every path that
    [is_file] accepts, the loop returns, whatever [mkdir] and [copy] do. *)
Theorem copy_failures_not_fatal :
  (forall fs p, is_file fs p = true -> stat_dt fs p <> None) ->
  (forall fs src, In src from_paths -> stat_dt fs src <> None) ->
  forall fs, fst (fst (copy_syntax_files fs)) = Returned tt.
Proof.
  intros Hfile Hsrc fs. unfold copy_syntax_files.
  apply copy_files_returns; [exact Hfile|].
  intros fs' src dst Hin. apply Hsrc.
  apply in_combine_l in Hin. exact Hin.
Qed.

Lemma copy_files_up_to_date (fs : FS) (pairs : list (string * string)) :
  (forall src dst, In (src, dst) pairs ->
     is_file fs dst = true
     /\ exists ts td, stat_dt fs src = Some ts /\ stat_dt fs dst = Some td
                      /\ ts <= td) ->
  copy_files fs pairs = (Returned tt, fs, []).
Proof.
  induction pairs as [|[src dst] rest IH]; intros H; [reflexivity|].
  destruct (H src dst (or_introl eq_refl)) as (Hf & ts & td & Hs & Hd & Hle).
  cbn [copy_files]. unfold needs_copy. rewrite Hf, Hd, Hs.
  replace (td <? ts) with false by (symmetry; apply Z.ltb_ge; exact Hle).
  apply IH. intros s d Hin. apply H. right. exact Hin.
Qed.

(** Destinations that are files and not older than their sources are left
    alone: nothing is created or copied and the file system is the same. *)
Theorem up_to_date_files_untouched (fs : FS) :
  (forall src dst, In (src, dst) (combine from_paths to_paths) ->
     is_file fs dst = true
     /\ exists ts td, stat_dt fs src = Some ts /\ stat_dt fs dst = Some td
                      /\ ts <= td) ->
  copy_syntax_files fs = (Returned tt, fs, []).
Proof. apply copy_files_up_to_date. Qed.

Lemma mkdir_before_copy_app (ev rest : list FsEvent) :
  (ev = [] \/ (exists d, ev = [FsMkdir d])
   \/ exists src dst, ev = [FsMkdir (parent dst); FsCopy src dst]) ->
  mkdir_before_copy rest = true ->
  (rest = [] \/ exists d tl, rest = FsMkdir d :: tl) ->
  mkdir_before_copy (ev ++ rest) = true.
Proof.
  intros [-> | [[d ->] | (src & dst & ->)]] Hrest Hhead.
  - exact Hrest.
  - destruct Hhead as [-> | (d' & tl & ->)]; [reflexivity|].
    cbn [app mkdir_before_copy]. exact Hrest.
  - cbn [app mkdir_before_copy]. rewrite String.eqb_refl. exact Hrest.
Qed.

Lemma copy_files_events (pairs : list (string * string)) :
  forall fs,
    mkdir_before_copy (snd (copy_files fs pairs)) = true
    /\ (snd (copy_files fs pairs) = []
        \/ exists d tl, snd (copy_files fs pairs) = FsMkdir d :: tl).
Proof.
  induction pairs as [|[src dst] rest IH]; intros fs.
  - split; [reflexivity | left; reflexivity].
  - cbn [copy_files].
    assert (Hcopy :
      let '(fs1, ev) := try_copy fs src dst in
      let '(o, fs2, ev') := copy_files fs1 rest in
      mkdir_before_copy (ev ++ ev') = true
      /\ ((ev ++ ev')%list = []
          \/ exists d tl, (ev ++ ev')%list = FsMkdir d :: tl)).
    { unfold try_copy. destruct (mkdir fs (parent dst)) as [[|] fs1].
      - destruct (copy fs1 src dst) as [c fs2].
        destruct (IH fs2) as [H1 H2].
        destruct (copy_files fs2 rest) as [[o fs3] ev']. cbn [snd] in *.
        split.
        + apply mkdir_before_copy_app; eauto.
        + right. cbn [app]. eauto.
      - destruct (IH fs1) as [H1 H2].
        destruct (copy_files fs1 rest) as [[o fs3] ev']. cbn [snd] in *.
        split.
        + apply mkdir_before_copy_app; eauto.
        + right. cbn [app]. eauto. }
    destruct (needs_copy fs src dst) as [[|]|].
    + destruct (try_copy fs src dst) as [fs1 ev].
      destruct (copy_files fs1 rest) as [[o fs2] ev']. exact Hcopy.
    + apply IH.
    + split; [reflexivity | left; reflexivity].
Qed.

(** The loop never copies into a directory it has not just asked for:
    every copy comes immediately after the [mkdir] of the parent of its
    destination. *)
Theorem copy_follows_mkdir (fs : FS) :
  mkdir_before_copy (snd (copy_syntax_files fs)) = true.
Proof. apply copy_files_events. Qed.

End BootstrapFacts.

(** ** The further facts on the demonstration session *)

(** A probe that prints no number, after a block that ran. *)
Lemma raised_run_is_half_done_witness :
  outcome_of (do_execute "di 1" false Demo2.garbled) = Raised "ValueError"
  /\ count is_do (events_of (do_execute "di 1" false Demo2.garbled))
     = 2%nat.
Proof.
  split; [vm_compute; reflexivity|].
  apply (raised_run_is_half_done (C := Demo.demo)
           "di 1" false Demo2.garbled "ValueError").
  vm_compute; reflexivity.
Defined.

(** One line of code, run aloud. *)
Lemma returned_run_trace_witness :
  outcome_of (is_complete "di 1" Demo.passing) = Returned true
  /\ truthy (quit_early "di 1" Demo.passing) = false
  /\ outcome_of (do_execute "di 1" false Demo.passing)
     = Returned (return_obj 0 0)
  /\ events_of (do_execute "di 1" false Demo.passing)
     = ([EvCodeManager "di 1" (Some (sc_delimit_mode Demo.passing));
         EvMagic "di 1";
         EvCodeManager (magic_code "di 1" Demo.passing)
           (Some (sc_delimit_mode Demo.passing));
         EvGetText (splitter "di 1" Demo.passing);
         user_event "di 1" Demo.passing; EvMagicsPost;
         EvCodeManager probe_code None; EvGetText probe;
         probe_event (before_hook "di 1" Demo.passing); EvRefresh]
        ++ notice_events "di 1" false Demo.passing)%list.
Proof.
  split; [vm_compute; reflexivity|]. split; [vm_compute; reflexivity|].
  split; [vm_compute; reflexivity|].
  apply (returned_run_trace (C := Demo.demo)
           "di 1" false Demo.passing (return_obj 0 0));
    vm_compute; reflexivity.
Defined.

(** Stata prints 120 between a blank and a newline. *)
Lemma post_do_hook_reads_decimal_witness :
  probe_rc Demo2.at_hook = 0
  /\ probe_res Demo2.at_hook
     = " " ++ decimal 120 ++ String "010"%char EmptyString
  /\ linesize (kernel_of (post_do_hook Demo2.at_hook)) = Z.of_nat 120.
Proof.
  split; [vm_compute; reflexivity|]. split; [vm_compute; reflexivity|].
  apply (post_do_hook_reads_decimal (C := Demo.demo) Demo2.at_hook 120
           " " (String "010"%char EmptyString));
    vm_compute; reflexivity.
Defined.

(** The PDF on disk. *)
Lemma send_image_pdf_witness :
  read_bytes (world Demo2.with_graphs) ("plot" ++ ".pdf") = Some "%PDF-1.4"
  /\ events_of (send_image ("plot" ++ ".pdf") Demo2.with_graphs)
     = [EvSend "display_data"
          (PDict [("data", PDict [("text/plain", PStr no_display_msg);
                                  ("application/pdf",
                                   PStr (b64encode "%PDF-1.4"))]);
                  ("metadata", PDict [])])].
Proof.
  split; [vm_compute; reflexivity|].
  rewrite (send_image_pdf (C := Demo.demo) "plot" "%PDF-1.4"
             Demo2.with_graphs ltac:(vm_compute; reflexivity)).
  reflexivity.
Defined.

(** The SVG on disk, 120pt by 80pt. *)
Lemma send_image_svg_size_witness :
  read_text (world Demo2.with_graphs) ("plot" ++ ".svg") = Some "<svg/>"
  /\ outcome_of (send_image ("plot" ++ ".svg") Demo2.with_graphs)
     = Returned tt.
Proof.
  split; [vm_compute; reflexivity|].
  rewrite (send_image_svg_size (C := Demo.demo) "plot" "<svg/>"
             Demo2.with_graphs
             [("width", "120pt"); ("height", "80pt")] 120 80
             "p"%char "t"%char "p"%char "t"%char
             ltac:(vm_compute; reflexivity) ltac:(vm_compute; reflexivity)
             ltac:(vm_compute; reflexivity) ltac:(vm_compute; reflexivity)).
  reflexivity.
Defined.

(** The cursor after [di]. *)
Lemma cursor_window_witness :
  0 <= 2
  /\ before_cursor "di 1" 2 ++ after_cursor "di 1" 2
     = PySlice.slice "di 1" 0 (2 + 2).
Proof.
  split; [lia|]. apply (cursor_window "di 1" 2). lia.
Defined.

(** A first start: nothing installed yet. *)
Lemma copy_failures_not_fatal_witness :
  (forall (fs : list (string * Z)) p, Bootstrap.is_file fs p = true ->
                Bootstrap.stat_dt fs p <> None)
  /\ (forall (fs : list (string * Z)) src,
        In src (Bootstrap.from_paths (F := Demo2.files)) ->
        Bootstrap.stat_dt fs src <> None)
  /\ fst (fst (Bootstrap.copy_syntax_files (F := Demo2.files) []))
     = Returned tt.
Proof.
  assert (H1 : forall (fs : list (string * Z)) p,
             Bootstrap.is_file fs p = true ->
             Bootstrap.stat_dt fs p <> None).
  { intros fs p. cbn. destruct (Demo2.demo_stat fs p); [discriminate|].
    discriminate. }
  assert (H2 : forall (fs : list (string * Z)) src,
             In src (Bootstrap.from_paths (F := Demo2.files)) ->
             Bootstrap.stat_dt fs src <> None).
  { intros fs src [<- | [<- | []]]; cbn; unfold Demo2.demo_stat;
      destruct (Demo2.lookup fs _); discriminate. }
  split; [exact H1|]. split; [exact H2|].
  exact (copy_failures_not_fatal (F := Demo2.files) H1 H2 []).
Defined.

(** A later start: both files installed and newer. *)
Lemma up_to_date_files_untouched_witness :
  Bootstrap.copy_syntax_files (F := Demo2.files) Demo2.installed
  = (Returned tt, Demo2.installed, []).
Proof.
  apply (up_to_date_files_untouched (F := Demo2.files) Demo2.installed).
  intros src dst [H | [H | []]]; injection H as <- <-;
    (split; [vm_compute; reflexivity|]);
    exists 10, 11; repeat split; vm_compute; try reflexivity; discriminate.
Defined.

(** The PNG that PIL measures as 600 by 400. *)
Lemma send_image_png_size_witness :
  Image_open_size (world Demo2.with_graphs) ("plot" ++ ".png")
  = Some (600, 400)
  /\ read_bytes (world Demo2.with_graphs) ("plot" ++ ".png") = Some "PNG"
  /\ outcome_of (send_image ("plot" ++ ".png") Demo2.with_graphs)
     = Returned tt.
Proof.
  split; [vm_compute; reflexivity|]. split; [vm_compute; reflexivity|].
  rewrite (send_image_png_size (C := Demo.demo) "plot" "PNG"
             Demo2.with_graphs 600 400
             ltac:(vm_compute; reflexivity) ltac:(vm_compute; reflexivity)).
  reflexivity.
Defined.

(** An SVG whose width is the bare unit. *)
Lemma send_image_svg_short_width_witness :
  read_text (world Demo2.with_graphs) ("plot" ++ ".svg") = Some "<svg/>"
  /\ send_image (C := Demo2.unit_only) ("plot" ++ ".svg") Demo2.with_graphs
     = (Raised "ValueError", Demo2.with_graphs, []).
Proof.
  split; [vm_compute; reflexivity|].
  apply (send_image_svg_short_width (C := Demo2.unit_only) "plot" "<svg/>"
           "pt" Demo2.with_graphs [("width", "pt"); ("height", "pt")]);
    vm_compute; try reflexivity; lia.
Defined.
